(** * monarch-bridge: the session sidecar of [src/main.py]

    A shallow embedding of the request handlers, the session store and the
    keep-alive task of [main.py], and the properties of them that the
    specification states.

    The program talks to three things it does not own: the [MonarchMoney]
    client object [mm], the file system and the clock.  They are modelled
    as an environment [Env] of scripted replies (what the n-th interaction
    answers) that every theorem quantifies over; what the program itself
    holds and does is the [World]: the credential of [mm], the chronological
    trace of the calls it made, and its log. *)

From Stdlib Require Import ZArith List String Ascii Bool Lia DecimalString.
Import ListNotations.
Set Warnings "-register-all".
Local Open Scope string_scope.
Local Open Scope Z_scope.

(* ================================================================== *)
(** ** Python values and strings                                       *)
(* ================================================================== *)

Module Py.

(** The Python values the handlers receive, build and return.  A [float]
    is carried as its IEEE-754 binary64 bit pattern: the program never
    computes with one, it only tests it against [None] and forwards it. *)
Inductive value : Type :=
| VNone
| VBool (b : bool)
| VInt (n : Z)
| VFloat (bits : Z)
| VStr (s : string)
| VList (items : list value)
| VDict (items : list (string * value)).

(** Python's truth test ([if v:]). *)
Definition truthy (v : value) : bool :=
  match v with
  | VNone => false
  | VBool b => b
  | VInt n => negb (n =? 0)
  | VFloat bits => negb ((bits =? 0) || (bits =? 2 ^ 63))
  | VStr s => negb (String.eqb s "")
  | VList l => match l with [] => false | _ => true end
  | VDict d => match d with [] => false | _ => true end
  end.

(** [v is not None]. *)
Definition is_not_None (v : value) : bool :=
  match v with VNone => false | _ => true end.

(** A binary64 pattern that is neither an infinity nor a NaN: its
    exponent field is not all ones. *)
Definition finite_float (bits : Z) : bool :=
  negb (Z.land (Z.shiftr bits 52) 2047 =? 2047).

(** The value can be written as JSON by [json.dumps(..., allow_nan=False)],
    which is how a returned value is rendered: every number in it is
    finite. *)
Fixpoint json_ok (v : value) : bool :=
  match v with
  | VFloat bits => finite_float bits
  | VList items => forallb json_ok items
  | VDict items =>
      (fix all (l : list (string * value)) : bool :=
         match l with
         | [] => true
         | (_, x) :: rest => json_ok x && all rest
         end) items
  | _ => true
  end.

(** [d[k]] on a dict literal, [None] standing for [KeyError]. *)
Fixpoint dict_get (k : string) (d : list (string * value)) : option value :=
  match d with
  | [] => None
  | (k', v) :: rest => if String.eqb k k' then Some v else dict_get k rest
  end.

(** [str(n)] for an [int]. *)
Definition str_int (n : Z) : string := NilZero.string_of_int (Z.to_int n).

(** [s.rjust(width, "0")], what [%m] and [%d] do to a number. *)
Definition zero_pad (width : nat) (s : string) : string :=
  String.concat "" (repeat "0" (width - String.length s)) ++ s.

(** [s.rfind("/") + 1]: the index just after the last slash, 0 without one. *)
Fixpoint after_last_slash (s : string) : nat :=
  match s with
  | EmptyString => 0
  | String c rest =>
      match after_last_slash rest with
      | O => if Ascii.eqb c "/" then 1%nat else 0%nat
      | S i => S (S i)
      end
  end.

Fixpoint all_slashes (s : string) : bool :=
  match s with
  | EmptyString => true
  | String c rest => Ascii.eqb c "/" && all_slashes rest
  end.

(** [s.rstrip("/")]. *)
Fixpoint rstrip_slash (s : string) : string :=
  match s with
  | EmptyString => EmptyString
  | String c rest =>
      match rstrip_slash rest with
      | EmptyString => if Ascii.eqb c "/" then EmptyString else String c EmptyString
      | rest' => String c rest'
      end
  end.

(** [os.path.dirname] (posixpath): the head up to the last slash, with its
    trailing slashes stripped unless it consists of slashes only. *)
Definition dirname (p : string) : string :=
  let head := String.substring 0 (after_last_slash p) p in
  if negb (String.eqb head "") && negb (all_slashes head)
  then rstrip_slash head
  else head.

End Py.

(* ================================================================== *)
(** ** Exceptions                                                      *)
(* ================================================================== *)

(** Instances of Python's [Exception] that cross this program: the two the
    client library raises by name, FastAPI's [HTTPException], and any other
    one (an [OSError] of the file system, a network error, an
    [OverflowError] of [datetime], ...) under its class name.  Signals that
    derive from [BaseException] only (interpreter exit, task cancellation)
    are no failures of a call and are not modelled. *)
Inductive exn : Type :=
| RequireMFAException (msg : string)
| LoginFailedException (msg : string)
| HTTPException (status_code : Z) (detail : string)
| OtherException (cls : string) (msg : string).

(** [str(e)], as the f-strings and [detail=str(e)] take it.  Starlette
    prints an [HTTPException] as ["<status_code>: <detail>"]. *)
Definition str_exn (e : exn) : string :=
  match e with
  | RequireMFAException m => m
  | LoginFailedException m => m
  | HTTPException c d => Py.str_int c ++ ": " ++ d
  | OtherException _ m => m
  end.

Definition is_RequireMFA (e : exn) : bool :=
  match e with RequireMFAException _ => true | _ => false end.

Definition is_LoginFailed (e : exn) : bool :=
  match e with LoginFailedException _ => true | _ => false end.

(* ================================================================== *)
(** ** The world, the environment and the effect monad                 *)
(* ================================================================== *)

Definition Token := string.

(** The calls the program makes on the client, the file system and the
    event loop, with the arguments it passes. *)
Inductive Effect : Type :=
| Makedirs (path : string)
| SaveSession (path : string)
| LoadSession (path : string)
| Login (email password : string) (mfa_secret_key : option string)
        (use_saved_session : bool)
| MultiFactorAuthenticate (email password code : string)
| GetAccounts
| GetTransactions (limit : Z) (start_date end_date : string)
| UpdateTransaction (transaction_id : string)
                    (kwargs : list (string * Py.value))
| Sleep (delay : Z).

(** Calls that go to the remote provider. *)
Definition is_remote (e : Effect) : bool :=
  match e with
  | Login _ _ _ _ | MultiFactorAuthenticate _ _ _ | GetAccounts
  | GetTransactions _ _ _ | UpdateTransaction _ _ => true
  | _ => false
  end.

(** Writes of the session file. *)
Definition is_persist (e : Effect) : bool :=
  match e with SaveSession _ => true | _ => false end.

Definition is_sleep (e : Effect) : bool :=
  match e with Sleep _ => true | _ => false end.

Definition count (p : Effect -> bool) (t : list Effect) : nat :=
  List.length (filter p t).

Inductive Level : Type := INFO | ERROR.

(** What the program holds: [mm.token], the calls made so far (oldest
    first) and the records handed to [logger]. *)
Record World : Type := mkWorld {
  token : option Token;
  trace : list Effect;
  log : list (Level * string)
}.

(** How a call on the outside ends. *)
Inductive Outcome (A : Type) : Type :=
| Returns (a : A)
| Raises (e : exn).
Arguments Returns {A} a.
Arguments Raises {A} e.

Definition returned {A} (o : Outcome A) : bool :=
  match o with Returns _ => true | Raises _ => false end.

(** The configuration read from the process environment at import time
    and the replies of the outside, by the number of calls made before.
    - [auth_reply]: [mm.login] and [mm.multi_factor_authenticate] return
      with the credential the provider handed out stored in [mm.token]
      (possibly none), or raise;
    - [stored_before_raise]: what a raising [mm.login] had already stored
      in [mm.token], if anything (see [mm.login]);
    - [gql_reply]: [mm.get_accounts], [mm.get_transactions] and
      [mm.update_transaction] return a payload or raise; they read the
      credential and never assign it;
    - [load_reply]: [mm.load_session] installs the pickled credential or
      raises; [fs_reply]: [os.makedirs] and [mm.save_session];
    - [clock]: the proleptic Gregorian ordinal of the day [datetime.now()]
      falls on. *)
Record Env : Type := mkEnv {
  SESSION_FILE : string;
  KEEP_ALIVE_INTERVAL : Z;
  path_exists : nat -> bool;
  fs_reply : nat -> Outcome unit;
  load_reply : nat -> Outcome (option Token);
  auth_reply : nat -> Outcome (option Token);
  gql_reply : nat -> Outcome Py.value;
  clock : nat -> Z;
  stored_before_raise : nat -> option (option Token)
}.

(** The defaults of [os.getenv] in [main.py]. *)
Definition default_SESSION_FILE : string := "/data/monarch_session.pickle".
Definition default_KEEP_ALIVE_INTERVAL : Z := 900.

(** A computation ends with a value or with a raised exception; the world
    it leaves behind is kept in both cases. *)
Inductive Res (A : Type) : Type :=
| Ret (a : A)
| Exc (e : exn).
Arguments Ret {A} a.
Arguments Exc {A} e.

Definition M (A : Type) : Type := World -> Res A * World.

Definition ret {A} (a : A) : M A := fun w => (Ret a, w).

Definition raise {A} (e : exn) : M A := fun w => (Exc e, w).

Definition bind {A B} (m : M A) (k : A -> M B) : M B :=
  fun w =>
    match m w with
    | (Ret a, w') => k a w'
    | (Exc e, w') => (Exc e, w')
    end.

(** [try: m  except Exception as e: h e]. *)
Definition try_except {A} (m : M A) (h : exn -> M A) : M A :=
  fun w =>
    match m w with
    | (Ret a, w') => (Ret a, w')
    | (Exc e, w') => h e w'
    end.

Declare Scope py_scope.
Delimit Scope py_scope with py.
Notation "x <- m ;; k" := (bind m (fun x => k))
  (at level 61, m at next level, right associativity) : py_scope.
Notation "m ;; k" := (bind m (fun _ => k))
  (at level 61, right associativity) : py_scope.
Local Open Scope py_scope.

Definition lift {A} (r : Res A) : M A := fun w => (r, w).

Definition get_token : M (option Token) := fun w => (Ret (token w), w).

Definition set_token (c : option Token) : M unit :=
  fun w => (Ret tt, mkWorld c (trace w) (log w)).

(** Make the call [e]: it joins the trace and ends as the environment's
    reply for this point of the run says. *)
Definition call {A} (e : Effect) (reply : nat -> Outcome A) : M A :=
  fun w =>
    let w' := mkWorld (token w) (trace w ++ [e]) (log w) in
    match reply (List.length (trace w)) with
    | Returns a => (Ret a, w')
    | Raises x => (Exc x, w')
    end.

Module logger.
Definition emit (l : Level) (msg : string) : M unit :=
  fun w => (Ret tt, mkWorld (token w) (trace w) (log w ++ [(l, msg)])).
Definition info : string -> M unit := emit INFO.
Definition error : string -> M unit := emit ERROR.
End logger.

(** The methods of the shared client object [mm] that [main.py] uses. *)
Module mm.
Section Client.
Variable env : Env.

(** The credential a [mm.login] that raised [e] as call number [n] leaves
    behind.  The refusals of the provider, [RequireMFAException] and
    [LoginFailedException], are raised before anything is stored.  Any
    other exception may come after the credential was stored: [main.py]
    leaves [save_session] at its default, so the library writes its own
    session file before it returns, and a failure of that write raises
    with the new credential in place. *)
Definition left_by_login (n : nat) (e : exn) (old : option Token)
    : option Token :=
  if is_RequireMFA e || is_LoginFailed e then old
  else match stored_before_raise env n with
       | Some c => c
       | None => old
       end.

(** [mm.login]: one call on the provider, the library's own session file
    included; it returns with the credential stored, or raises and leaves
    [left_by_login]. *)
Definition login (email password : string) (mfa_secret_key : option string)
    (use_saved_session : bool) : M unit :=
  fun w =>
    let n := List.length (trace w) in
    let t := (trace w
              ++ [Login email password mfa_secret_key use_saved_session])%list
    in
    match auth_reply env n with
    | Returns c => (Ret tt, mkWorld c t (log w))
    | Raises e => (Exc e, mkWorld (left_by_login n e (token w)) t (log w))
    end.

Definition multi_factor_authenticate (email password code : string)
    : M unit :=
  c <- call (MultiFactorAuthenticate email password code) (auth_reply env) ;;
  set_token c.

Definition get_accounts : M Py.value := call GetAccounts (gql_reply env).

Definition get_transactions (limit : Z) (start_date end_date : string)
    : M Py.value :=
  call (GetTransactions limit start_date end_date) (gql_reply env).

Definition update_transaction (transaction_id : string)
    (kwargs : list (string * Py.value)) : M Py.value :=
  call (UpdateTransaction transaction_id kwargs) (gql_reply env).

Definition save_session (path : string) : M unit :=
  call (SaveSession path) (fs_reply env).

Definition load_session (path : string) : M unit :=
  c <- call (LoadSession path) (load_reply env) ;;
  set_token c.

End Client.
End mm.

Module os.
Definition makedirs (env : Env) (path : string) : M unit :=
  call (Makedirs path) (fs_reply env).
Definition path_exists (env : Env) (path : string) : M bool :=
  fun w => (Ret (path_exists env (List.length (trace w))), w).
End os.

Module asyncio.

(** An [int] delay the event loop cannot turn into a [float] deadline:
    from [2 ^ 1024 - 2 ^ 970] on it rounds beyond the largest double. *)
Definition too_large (delay : Z) : bool := 2 ^ 1024 - 2 ^ 970 <=? delay.

(** [await asyncio.sleep(delay)] for an [int] delay: it comes back (at
    once when the delay is not positive), or raises [OverflowError] when
    the delay is too large for a float. *)
Definition sleep (delay : Z) : M unit :=
  fun w =>
    let w' := mkWorld (token w) (trace w ++ [Sleep delay]) (log w) in
    if too_large delay
    then (Exc (OtherException "OverflowError"
                 "int too large to convert to float"), w')
    else (Ret tt, w').

End asyncio.

(* ================================================================== *)
(** ** [datetime]: the day arithmetic of the transaction window        *)
(* ================================================================== *)

(** A [datetime] is carried as the proleptic Gregorian ordinal of its day
    (1 is 0001-01-01): subtracting whole days and printing with
    ["%Y-%m-%d"] never look at the time of day. *)
Module datetime.

Definition MAXORDINAL : Z := 3652059.

Definition valid (ordinal : Z) : bool :=
  (1 <=? ordinal) && (ordinal <=? MAXORDINAL).

Definition OverflowError (msg : string) : exn :=
  OtherException "OverflowError" msg.

(** [timedelta(days=days)]: the days must fit a C [int] on their way in,
    and then have at most nine digits. *)
Definition timedelta (days : Z) : Res Z :=
  if (2 ^ 31 <=? days) || (days <? - 2 ^ 31)
  then Exc (OverflowError "Python int too large to convert to C int")
  else if Z.abs days <=? 999999999 then Ret days
  else Exc (OverflowError ("days=" ++ Py.str_int days
                           ++ "; must have magnitude <= 999999999")).

(** [day - delta], within years 1 to 9999. *)
Definition sub (day delta : Z) : Res Z :=
  if valid (day - delta) then Ret (day - delta)
  else Exc (OverflowError "date value out of range").

Definition DAYS_IN_MONTH : list Z :=
  [-1; 31; 28; 31; 30; 31; 30; 31; 31; 30; 31; 30; 31].

Definition DAYS_BEFORE_MONTH : list Z :=
  [-1; 0; 31; 59; 90; 120; 151; 181; 212; 243; 273; 304; 334].

Definition b2z (b : bool) : Z := if b then 1 else 0.

(** [_ord2ymd]: ordinal to (year, month, day). *)
Definition ord2ymd (ordinal : Z) : Z * Z * Z :=
  let n := ordinal - 1 in
  let n400 := n / 146097 in
  let n := n mod 146097 in
  let year := n400 * 400 + 1 in
  let n100 := n / 36524 in
  let n := n mod 36524 in
  let n4 := n / 1461 in
  let n := n mod 1461 in
  let n1 := n / 365 in
  let n := n mod 365 in
  let year := year + n100 * 100 + n4 * 4 + n1 in
  if (n1 =? 4) || (n100 =? 4) then (year - 1, 12, 31)
  else
    let leapyear := (n1 =? 3) && (negb (n4 =? 24) || (n100 =? 3)) in
    let month := Z.shiftr (n + 50) 5 in
    let preceding := nth (Z.to_nat month) DAYS_BEFORE_MONTH 0
                     + b2z ((2 <? month) && leapyear) in
    if n <? preceding then
      let month := month - 1 in
      let preceding := preceding
                       - (nth (Z.to_nat month) DAYS_IN_MONTH 0
                          + b2z ((month =? 2) && leapyear)) in
      (year, month, n - preceding + 1)
    else (year, month, n - preceding + 1).

(** [d.strftime("%Y-%m-%d")], as CPython prints it through the C library
    on Linux: month and day on two digits, the year without padding
    (["931-09-06"], ["1-01-01"]). *)
Definition strftime_Ymd (ordinal : Z) : string :=
  let '(y, m, d) := ord2ymd ordinal in
  Py.str_int y ++ "-" ++ Py.zero_pad 2 (Py.str_int m)
  ++ "-" ++ Py.zero_pad 2 (Py.str_int d).

Definition now (env : Env) : M Z :=
  fun w => (Ret (clock env (List.length (trace w))), w).

End datetime.

(* ================================================================== *)
(** ** [main.py]                                                       *)
(* ================================================================== *)

(** The request models. *)
Record LoginRequest : Type := mkLoginRequest {
  lr_email : string;
  lr_password : string;
  lr_mfa_secret : option string
}.

Record MFARequest : Type := mkMFARequest {
  mr_email : string;
  mr_password : string;
  mr_code : string
}.

(** Every field is [Optional[...] = None]; [amount] holds the bits of its
    [float]. *)
Record TransactionUpdate : Type := mkTransactionUpdate {
  notes : option string;
  category_id : option string;
  needs_review : option bool;
  merchant_name : option string;
  amount : option Z;
  date : option string
}.

Definition dump {A} (inj : A -> Py.value) (o : option A) : Py.value :=
  match o with Some a => inj a | None => Py.VNone end.

(** [update.model_dump()]: every declared field, in declaration order. *)
Definition model_dump (u : TransactionUpdate) : list (string * Py.value) :=
  [ ("notes", dump Py.VStr (notes u));
    ("category_id", dump Py.VStr (category_id u));
    ("needs_review", dump Py.VBool (needs_review u));
    ("merchant_name", dump Py.VStr (merchant_name u));
    ("amount", dump Py.VFloat (amount u));
    ("date", dump Py.VStr (date u)) ].

(** What a JSON body says about one declared field. *)
Inductive Field (A : Type) : Type :=
| Absent
| Null
| Given (a : A).
Arguments Absent {A}.
Arguments Null {A}.
Arguments Given {A} a.

(** [Optional[A] = None]: an absent key takes the default. *)
Definition optional {A} (f : Field A) : option A :=
  match f with Given a => Some a | _ => None end.

(** The JSON body of a [PATCH], field by declared field. *)
Record TransactionUpdateBody : Type := mkBody {
  b_notes : Field string;
  b_category_id : Field string;
  b_needs_review : Field bool;
  b_merchant_name : Field string;
  b_amount : Field Z;
  b_date : Field string
}.

Definition model_validate (b : TransactionUpdateBody) : TransactionUpdate :=
  mkTransactionUpdate (optional (b_notes b)) (optional (b_category_id b))
    (optional (b_needs_review b)) (optional (b_merchant_name b))
    (optional (b_amount b)) (optional (b_date b)).

Section Main.
Variable env : Env.

(** [mm.token is not None]. *)
Definition authenticated (w : World) : bool :=
  match token w with Some _ => true | None => false end.

Definition is_authenticated : M bool := fun w => (Ret (authenticated w), w).

Definition save_session : M unit :=
  try_except
    (os.makedirs env (Py.dirname (SESSION_FILE env)) ;;
     mm.save_session env (SESSION_FILE env) ;;
     logger.info ("Session saved to " ++ SESSION_FILE env))
    (fun e => logger.error ("Failed to save session: " ++ str_exn e)).

Definition load_session : M bool :=
  present <- os.path_exists env (SESSION_FILE env) ;;
  if (present : bool) then
    try_except
      (mm.load_session env (SESSION_FILE env) ;;
       logger.info ("Session loaded from " ++ SESSION_FILE env) ;;
       ret true)
      (fun e =>
         logger.error ("Failed to load session: " ++ str_exn e) ;;
         ret false)
  else ret false.

(** One turn of the [while True] of [keep_alive_loop]. *)
Definition keep_alive_tick : M unit :=
  try_except
    (a <- is_authenticated ;;
     if (a : bool) then
       logger.info "Performing keep-alive ping..." ;;
       mm.get_accounts env ;;
       logger.info "Keep-alive ping successful."
     else
       logger.info "Not logged in, skipping keep-alive.")
    (fun e => logger.error ("Keep-alive ping failed: " ++ str_exn e)) ;;
  asyncio.sleep (KEEP_ALIVE_INTERVAL env).

(** Where the task stands after a number of turns: still inside the loop,
    or left it through an exception. *)
Inductive Task : Type :=
| Looping
| Crashed (e : exn).

(** [keep_alive_loop], run for [turns] turns of its [while True]. *)
Fixpoint keep_alive_loop (turns : nat) (w : World) : Task * World :=
  match turns with
  | O => (Looping, w)
  | S n =>
      match keep_alive_tick w with
      | (Ret _, w') => keep_alive_loop n w'
      | (Exc e, w') => (Crashed e, w')
      end
  end.

Definition status_message (status message : string) : Py.value :=
  Py.VDict [("status", Py.VStr status); ("message", Py.VStr message)].

Definition perform_login (email password : string)
    (mfa_secret : option string) : M Py.value :=
  try_except
    (mm.login env email password mfa_secret false ;;
     save_session ;;
     ret (status_message "success" "Logged in successfully"))
    (fun e =>
       if is_RequireMFA e then
         ret (status_message "mfa_required" "MFA code required")
       else if is_LoginFailed e then
         logger.error ("Login failed: " ++ str_exn e) ;;
         raise (HTTPException 401 (str_exn e))
       else
         logger.error ("Login error: " ++ str_exn e) ;;
         raise (HTTPException 500 (str_exn e))).

(** [GET /health]. *)
Definition health_check : M Py.value :=
  a <- is_authenticated ;;
  ret (Py.VDict [("status", Py.VStr "ok"); ("logged_in", Py.VBool a)]).

(** [POST /auth/login]. *)
Definition login (req : LoginRequest) : M Py.value :=
  perform_login (lr_email req) (lr_password req) (lr_mfa_secret req).

(** [POST /auth/mfa]. *)
Definition mfa (req : MFARequest) : M Py.value :=
  try_except
    (mm.multi_factor_authenticate env (mr_email req) (mr_password req)
       (mr_code req) ;;
     a <- is_authenticated ;;
     if (a : bool) then
       save_session ;;
       ret (status_message "success" "MFA successful")
     else
       raise (HTTPException 401 "MFA failed"))
    (fun e =>
       logger.error ("MFA error: " ++ str_exn e) ;;
       raise (HTTPException 500 (str_exn e))).

(** [GET /transactions]. *)
Definition get_transactions (days : Z) : M Py.value :=
  a <- is_authenticated ;;
  if negb a then raise (HTTPException 401 "Not authenticated")
  else
    try_except
      (now <- datetime.now env ;;
       delta <- lift (datetime.timedelta days) ;;
       start <- lift (datetime.sub now delta) ;;
       let start_date := datetime.strftime_Ymd start in
       let end_date := datetime.strftime_Ymd now in
       transactions <- mm.get_transactions env 1000 start_date end_date ;;
       ret transactions)
      (fun e =>
         logger.error ("Error fetching transactions: " ++ str_exn e) ;;
         raise (HTTPException 500 (str_exn e))).

(** The query parameter [days: int = Query(30)]. *)
Definition GET_transactions (days : option Z) : M Py.value :=
  get_transactions (match days with Some n => n | None => 30 end).

(** The dict comprehension of [update_transaction]. *)
Definition kwargs_of (u : TransactionUpdate) : list (string * Py.value) :=
  filter (fun kv => Py.is_not_None (snd kv)) (model_dump u).

(** [PATCH /transactions/{transaction_id}]. *)
Definition update_transaction (transaction_id : string)
    (update : TransactionUpdate) : M Py.value :=
  a <- is_authenticated ;;
  if negb a then raise (HTTPException 401 "Not authenticated")
  else
    try_except
      (let kwargs := kwargs_of update in
       match kwargs with
       | [] => ret (status_message "no_change" "No fields to update")
       | _ =>
           mm.update_transaction env transaction_id kwargs ;;
           ret (status_message "success"
                  ("Transaction " ++ transaction_id ++ " updated"))
       end)
      (fun e =>
         logger.error ("Error updating transaction: " ++ str_exn e) ;;
         raise (HTTPException 500 (str_exn e))).

Definition PATCH_transaction (transaction_id : string)
    (body : TransactionUpdateBody) : M Py.value :=
  update_transaction transaction_id (model_validate body).

End Main.

(** What FastAPI sends for the way a handler ended: 200 with the returned
    value when it can be written as JSON and a plain 500 when it cannot,
    an [HTTPException] as its status code with [{"detail": ...}], and any
    other exception as a plain 500. *)
Record Response : Type := mkResponse {
  status_code : Z;
  body : Py.value
}.

Definition respond (r : Res Py.value) : Response :=
  match r with
  | Ret v =>
      if Py.json_ok v then mkResponse 200 v
      else mkResponse 500 (Py.VStr "Internal Server Error")
  | Exc (HTTPException c d) => mkResponse c (Py.VDict [("detail", Py.VStr d)])
  | Exc _ => mkResponse 500 (Py.VStr "Internal Server Error")
  end.

(** The ["status"] entry of a JSON object body. *)
Definition body_status (r : Response) : option Py.value :=
  match body r with
  | Py.VDict d => Py.dict_get "status" d
  | _ => None
  end.

(** The calls a run added to the trace. *)
Definition since (w w' : World) : list Effect :=
  skipn (List.length (trace w)) (trace w').

(** *** Startup and shutdown: [lifespan] *)

(** The automated-login settings [main.py] reads with [os.getenv]: each
    is a string or, when the variable is unset, [None]. *)
Record Credentials : Type := mkCredentials {
  MONARCH_EMAIL : option string;
  MONARCH_PASSWORD : option string;
  MONARCH_MFA_SECRET : option string
}.

(** [d[k]] as an expression: [KeyError] on a missing key, [TypeError] on a
    value that is no dict. *)
Definition subscript (d : Py.value) (k : string) : M Py.value :=
  match d with
  | Py.VDict items =>
      match Py.dict_get k items with
      | Some v => ret v
      | None => raise (OtherException "KeyError" ("'" ++ k ++ "'"))
      end
  | _ => raise (OtherException "TypeError" "object is not subscriptable")
  end.

(** [v == s] for a string literal [s]. *)
Definition eq_str (v : Py.value) (s : string) : bool :=
  match v with Py.VStr s' => String.eqb s' s | _ => false end.

(** The text an f-string gives a message.  Only strings are ever
    formatted this way in [main.py] ([perform_login] returns no other
    message); the other scalars print as Python prints them and a float or
    a container, which never gets here, is left blank. *)
Definition str_value (v : Py.value) : string :=
  match v with
  | Py.VStr s => s
  | Py.VNone => "None"
  | Py.VBool true => "True"
  | Py.VBool false => "False"
  | Py.VInt n => Py.str_int n
  | _ => ""
  end.

(** The part of [lifespan] that runs before the application serves:
    load the session, else log in with the configured credentials when
    both are set and non-empty.  The keep-alive task it then starts runs
    beside the handlers ([keep_alive_loop]). *)
Definition lifespan_startup (env : Env) (cfg : Credentials) : M unit :=
  session_loaded <- load_session env ;;
  match MONARCH_EMAIL cfg, MONARCH_PASSWORD cfg with
  | Some email, Some password =>
      if negb session_loaded && Py.truthy (Py.VStr email)
         && Py.truthy (Py.VStr password)
      then
        logger.info "Attempting automated login on startup..." ;;
        try_except
          (res <- perform_login env email password (MONARCH_MFA_SECRET cfg) ;;
           status <- subscript res "status" ;;
           if eq_str status "success" then
             logger.info "Automated login successful"
           else
             message <- subscript res "message" ;;
             logger.info ("Automated login: " ++ str_value message))
          (fun e => logger.error ("Automated login failed: " ++ str_exn e))
      else ret tt
  | _, _ => ret tt
  end.

(** The part of [lifespan] that runs at shutdown. *)
Definition lifespan_shutdown (env : Env) : M unit :=
  a <- is_authenticated ;;
  if (a : bool) then save_session env else ret tt.

(** How many turns of the loop are run when [turns] are asked for: all of
    them, or the first only when the sleep refuses the interval. *)
Definition turns_made (env : Env) (turns : nat) : nat :=
  if asyncio.too_large (KEEP_ALIVE_INTERVAL env) then Nat.min turns 1
  else turns.

(** What the log holds after one turn started at call number [n]. *)
Definition tick_log (env : Env) (signed_in_state : bool) (n : nat)
    : list (Level * string) :=
  if signed_in_state then
    [(INFO, "Performing keep-alive ping...");
     match gql_reply env n with
     | Returns _ => (INFO, "Keep-alive ping successful.")
     | Raises e => (ERROR, "Keep-alive ping failed: " ++ str_exn e)
     end]
  else [(INFO, "Not logged in, skipping keep-alive.")].

(** A handler ended in a way FastAPI answers from the handler's own words:
    a returned value or an [HTTPException]. *)
Definition handled {A} (r : Res A) : bool :=
  match r with
  | Ret _ => true
  | Exc (HTTPException _ _) => true
  | Exc _ => false
  end.

(** The fields [TransactionUpdate] declares, in order. *)
Definition declared_fields : list string :=
  ["notes"; "category_id"; "needs_review"; "merchant_name"; "amount"; "date"].

(** The provider rejects the credentials. *)
Definition rejecting_env : Env :=
  mkEnv default_SESSION_FILE default_KEEP_ALIVE_INTERVAL
    (fun _ => false) (fun _ => Returns tt)
    (fun _ => Returns None)
    (fun _ => Raises (LoginFailedException "Invalid credentials"))
    (fun _ => Returns Py.VNone)
    (fun _ => 739924) (fun _ => None).

(** No session file yet; the provider accepts the credentials. *)
Definition fresh_env : Env :=
  mkEnv default_SESSION_FILE default_KEEP_ALIVE_INTERVAL
    (fun _ => false) (fun _ => Returns tt)
    (fun _ => Returns None) (fun _ => Returns (Some "token-3"))
    (fun _ => Returns Py.VNone)
    (fun _ => 739924) (fun _ => None).

Definition configured : Credentials :=
  mkCredentials (Some "a@b.c") (Some "pw") None.

Definition unconfigured : Credentials :=
  mkCredentials (Some "a@b.c") (Some "") None.

(** *** The statements the handlers are compared with *)

(** The calls of one turn of the keep-alive loop in a given state of
    authentication: the ping when authenticated, then the sleep. *)
Definition tick_calls (env : Env) (w : World) : list Effect :=
  ((if authenticated w then [GetAccounts] else [])
   ++ [Sleep (KEEP_ALIVE_INTERVAL env)])%list.

(** In a trace, every ping comes after at least one sleep. *)
Definition sleep_precedes_ping (t : list Effect) : Prop :=
  forall pre post : list Effect,
    t = (pre ++ GetAccounts :: post)%list -> (1 <= count is_sleep pre)%nat.

(** The request [GET /transactions?days=N], served from [w], makes exactly
    one remote call, the listing of at most 1000 transactions from N days
    before today up to today, and hands back the payload of that call. *)
Definition forwards_window (env : Env) (days : option Z) (w : World) : Prop :=
  let N := match days with Some n => n | None => 30 end in
  let today := clock env (List.length (trace w)) in
  since w (snd (GET_transactions env days w)) =
    [GetTransactions 1000 (datetime.strftime_Ymd (today - N))
       (datetime.strftime_Ymd today)]
  /\ forall payload : Py.value,
       gql_reply env (List.length (trace w)) = Returns payload ->
       respond (fst (GET_transactions env days w)) = mkResponse 200 payload.

(** What a JSON body holds for each declared key, as Python values. *)
Definition field_value {A} (inj : A -> Py.value) (f : Field A)
    : Field Py.value :=
  match f with
  | Absent => Absent
  | Null => Null
  | Given a => Given (inj a)
  end.

Definition body_entries (b : TransactionUpdateBody)
    : list (string * Field Py.value) :=
  [ ("notes", field_value Py.VStr (b_notes b));
    ("category_id", field_value Py.VStr (b_category_id b));
    ("needs_review", field_value Py.VBool (b_needs_review b));
    ("merchant_name", field_value Py.VStr (b_merchant_name b));
    ("amount", field_value Py.VFloat (b_amount b));
    ("date", field_value Py.VStr (b_date b)) ].

(** *** Sample requests, worlds and environments *)

(** The body [{}] and the body that sets every declared field to [null]. *)
Definition empty_body : TransactionUpdateBody :=
  mkBody Absent Absent Absent Absent Absent Absent.

Definition all_null_body : TransactionUpdateBody :=
  mkBody Null Null Null Null Null Null.

(** [{"notes": "", "needs_review": false, "amount": 0.0}]. *)
Definition falsy_update : TransactionUpdate :=
  mkTransactionUpdate (Some "") None (Some false) None (Some 0) None.

(** The body [{"notes": "", "needs_review": false, "merchant_name": null,
    "amount": 0.0}]. *)
Definition falsy_body : TransactionUpdateBody :=
  mkBody (Given "") Absent (Given false) Null (Given 0) Absent.

Definition signed_out : World := mkWorld None [] [].

Definition signed_in : World := mkWorld (Some "token-1") [] [].

(** 2026-11-04. *)
Definition a_day : Z := 739924.

(** Every call returns; logging in hands out a credential. *)
Definition calm_env : Env :=
  mkEnv default_SESSION_FILE default_KEEP_ALIVE_INTERVAL
    (fun _ => true) (fun _ => Returns tt)
    (fun _ => Returns (Some "token-0")) (fun _ => Returns (Some "token-2"))
    (fun _ => Returns (Py.VList [Py.VDict [("id", Py.VStr "1")]]))
    (fun _ => a_day) (fun _ => None).

(** The provider is down and hands out no credential; the session file is
    there but unreadable. *)
Definition stormy_env : Env :=
  mkEnv default_SESSION_FILE default_KEEP_ALIVE_INTERVAL
    (fun _ => true) (fun _ => Raises (OtherException "OSError" "read-only"))
    (fun _ => Raises (OtherException "UnpicklingError" "truncated"))
    (fun _ => Returns None)
    (fun _ => Raises (OtherException "ClientError" "API Error"))
    (fun _ => a_day) (fun _ => None).

(** A quiet NaN as binary64. *)
Definition NaN : Z := 9221120237041090560.

(** The provider lists a transaction whose amount is no number. *)
Definition nan_env : Env :=
  mkEnv default_SESSION_FILE default_KEEP_ALIVE_INTERVAL
    (fun _ => true) (fun _ => Returns tt)
    (fun _ => Returns (Some "token-0")) (fun _ => Returns (Some "token-2"))
    (fun _ => Returns (Py.VList [Py.VDict [("amount", Py.VFloat NaN)]]))
    (fun _ => a_day) (fun _ => None).

(** The interval is set to [10 ** 309] seconds. *)
Definition sleepless_env : Env :=
  mkEnv default_SESSION_FILE (10 ^ 309)
    (fun _ => true) (fun _ => Returns tt)
    (fun _ => Returns (Some "token-0")) (fun _ => Returns (Some "token-2"))
    (fun _ => Returns Py.VNone)
    (fun _ => a_day) (fun _ => None).

(** The library is handed a credential and then fails to write its own
    session file. *)
Definition late_failure_env : Env :=
  mkEnv default_SESSION_FILE default_KEEP_ALIVE_INTERVAL
    (fun _ => false) (fun _ => Returns tt)
    (fun _ => Returns None)
    (fun _ => Raises (OtherException "PermissionError" "Permission denied"))
    (fun _ => Returns Py.VNone)
    (fun _ => a_day) (fun _ => Some (Some "token-4")).


(** The provider fails the first two pings of a keep-alive task started
    on a fresh trace (calls 0 and 2) and answers from then on. *)
Definition flaky_env : Env :=
  mkEnv default_SESSION_FILE default_KEEP_ALIVE_INTERVAL
    (fun _ => true) (fun _ => Returns tt)
    (fun _ => Returns (Some "token-0")) (fun _ => Returns (Some "token-2"))
    (fun n => if (n <? 4)%nat
              then Raises (OtherException "ClientError" "API Error")
              else Returns Py.VNone)
    (fun _ => a_day) (fun _ => None).

(* ================================================================== *)
(** ** Properties                                                      *)
(* ================================================================== *)

(** *** The trace of a run *)

Lemma since_self (w : World) : since w w = [].
Proof. unfold since. apply skipn_all. Qed.

Lemma since_app (w : World) (c : option Token) (evs : list Effect)
    (l : list (Level * string)) :
  since w (mkWorld c (trace w ++ evs) l) = evs.
Proof.
  unfold since; cbn [trace].
  rewrite skipn_app, skipn_all, Nat.sub_diag. reflexivity.
Qed.

Lemma since_trace (w w' : World) (evs : list Effect) :
  trace w' = (trace w ++ evs)%list -> since w w' = evs.
Proof.
  intros H. unfold since. rewrite H.
  rewrite skipn_app, skipn_all, Nat.sub_diag. reflexivity.
Qed.

Lemma world_eta (w : World) : mkWorld (token w) (trace w) (log w) = w.
Proof. destruct w; reflexivity. Qed.

(** Unfold the monadic plumbing down to the replies of the environment. *)
Ltac run :=
  unfold os.makedirs, os.path_exists, datetime.now, asyncio.sleep,
    logger.info, logger.error, logger.emit, is_authenticated, get_token,
    set_token, lift, call, bind, try_except, ret, raise; cbn.

(** *** Session store *)

(** [save_session] never raises: it ends with [Ret tt] whatever the file
    system answers. *)
Lemma save_session_returns (env : Env) (w : World) :
  fst (save_session env w) = Ret tt.
Proof.
  unfold save_session, mm.save_session. run.
  destruct (fs_reply env (List.length (trace w))); cbn; [|reflexivity].
  rewrite length_app; cbn.
  destruct (fs_reply env _); reflexivity.
Qed.

(** What one [save_session] does to the world: the directory is made, and
    when that worked the session file is written; the credential stays. *)
Lemma save_session_run (env : Env) (w : World) :
  token (snd (save_session env w)) = token w
  /\ trace (snd (save_session env w)) =
       (trace w
        ++ Makedirs (Py.dirname (SESSION_FILE env))
           :: (if returned (fs_reply env (List.length (trace w)))
               then [SaveSession (SESSION_FILE env)] else []))%list.
Proof.
  unfold save_session, mm.save_session. run.
  destruct (fs_reply env (List.length (trace w))); cbn.
  - rewrite length_app; cbn.
    destruct (fs_reply env _); cbn; split; try reflexivity;
      rewrite <- app_assoc; reflexivity.
  - split; reflexivity.
Qed.

(** C6. [load_session] never raises to its caller.  Whatever the file
    system and the client answer it returns a boolean: false, touching
    nothing, when the session file is not there; true, with the loaded
    credential installed, when the file is there and [mm.load_session]
    returns; false, with the error logged and the credential as it was,
    when the file is there and [mm.load_session] raises. *)
Theorem load_session_never_raises (env : Env) (w : World) :
  load_session env w =
    let n := List.length (trace w) in
    let t := (trace w ++ [LoadSession (SESSION_FILE env)])%list in
    if path_exists env n then
      match load_reply env n with
      | Returns c =>
          (Ret true,
           mkWorld c t
             (log w ++ [(INFO, "Session loaded from " ++ SESSION_FILE env)]))
      | Raises e =>
          (Ret false,
           mkWorld (token w) t
             (log w ++ [(ERROR, "Failed to load session: " ++ str_exn e)]))
      end
    else (Ret false, w).
Proof.
  unfold load_session, mm.load_session. run.
  destruct (path_exists env (List.length (trace w))); [|reflexivity].
  destruct (load_reply env (List.length (trace w))); reflexivity.
Qed.

(** *** Transactions *)

(** C9. A [GET /transactions] request made while unauthenticated is
    answered with status 401 and issues no remote call: the world is left
    exactly as it was. *)
Theorem get_transactions_unauthenticated_401
    (env : Env) (days : option Z) (w : World) :
  authenticated w = false ->
  status_code (respond (fst (GET_transactions env days w))) = 401
  /\ count is_remote (since w (snd (GET_transactions env days w))) = 0%nat
  /\ snd (GET_transactions env days w) = w.
Proof.
  intros Hw. unfold GET_transactions, get_transactions. run.
  rewrite Hw; cbn. rewrite since_self. auto.
Qed.

(** C8. An authenticated [PATCH /transactions/{id}] whose body yields an
    empty update set is answered 200 with status ["no_change"] and makes
    no remote call: the world is left exactly as it was. *)
Theorem update_transaction_empty_no_change
    (env : Env) (transaction_id : string) (update : TransactionUpdate)
    (w : World) :
  authenticated w = true ->
  kwargs_of update = [] ->
  status_code (respond (fst (update_transaction env transaction_id update w)))
    = 200
  /\ body_status
       (respond (fst (update_transaction env transaction_id update w)))
     = Some (Py.VStr "no_change")
  /\ count is_remote
       (since w (snd (update_transaction env transaction_id update w)))
     = 0%nat
  /\ snd (update_transaction env transaction_id update w) = w.
Proof.
  intros Hw Hk. unfold update_transaction. rewrite Hk. run.
  rewrite Hw; cbn. rewrite since_self. auto.
Qed.

Lemma get_transactions_unauthenticated_401_witness :
  authenticated signed_out = false
  /\ status_code (respond (fst (GET_transactions calm_env (Some 7) signed_out)))
     = 401
  /\ count is_remote
       (since signed_out (snd (GET_transactions calm_env (Some 7) signed_out)))
     = 0%nat
  /\ snd (GET_transactions calm_env (Some 7) signed_out) = signed_out.
Proof.
  split; [reflexivity|].
  apply (get_transactions_unauthenticated_401 calm_env (Some 7) signed_out).
  reflexivity.
Defined.

Lemma update_transaction_empty_no_change_witness :
  authenticated signed_in = true
  /\ kwargs_of (model_validate all_null_body) = []
  /\ status_code
       (respond (fst (update_transaction stormy_env "123"
                        (model_validate all_null_body) signed_in))) = 200
  /\ body_status
       (respond (fst (update_transaction stormy_env "123"
                        (model_validate all_null_body) signed_in)))
     = Some (Py.VStr "no_change")
  /\ count is_remote
       (since signed_in
          (snd (update_transaction stormy_env "123"
                  (model_validate all_null_body) signed_in))) = 0%nat
  /\ snd (update_transaction stormy_env "123"
            (model_validate all_null_body) signed_in) = signed_in.
Proof.
  split; [reflexivity|]. split; [reflexivity|].
  apply (update_transaction_empty_no_change stormy_env "123"
           (model_validate all_null_body) signed_in); reflexivity.
Defined.

(** What an authenticated update with at least one field does: one remote
    update call carrying exactly the kept fields; 200 when it returns, 500
    with the cause logged when it raises. *)
Lemma update_transaction_run (env : Env) (transaction_id : string)
    (update : TransactionUpdate) (w : World) :
  authenticated w = true ->
  kwargs_of update <> [] ->
  update_transaction env transaction_id update w =
    let t := (trace w
              ++ [UpdateTransaction transaction_id (kwargs_of update)])%list in
    match gql_reply env (List.length (trace w)) with
    | Returns _ =>
        (Ret (status_message "success"
                ("Transaction " ++ transaction_id ++ " updated")),
         mkWorld (token w) t (log w))
    | Raises e =>
        (Exc (HTTPException 500 (str_exn e)),
         mkWorld (token w) t
           (log w ++ [(ERROR, "Error updating transaction: " ++ str_exn e)]))
    end.
Proof.
  intros Hw Hk. unfold update_transaction, mm.update_transaction.
  destruct (kwargs_of update) as [|kv rest] eqn:E; [contradiction|].
  run. rewrite Hw; cbn.
  destruct (gql_reply env (List.length (trace w))); reflexivity.
Qed.

Lemma is_not_None_iff (v : Py.value) :
  Py.is_not_None v = true <-> v <> Py.VNone.
Proof. destruct v; cbn; split; congruence. Qed.

(** C10. The update set is built by the test [is not None], not by truth
    value.  A body with every declared field [null] is handled exactly as
    the empty body, and so is any body that gives no field a value: no
    remote call, ["no_change"].  An entry reaches the update set exactly
    when the body gives its key a value; so a body with
    [needs_review=false], [amount=0.0] or [notes=""], falsy as they are,
    has them kept, and the one remote update call of the request carries
    the whole update set. *)
Theorem update_filter_is_not_None
    (env : Env) (transaction_id : string) (body : TransactionUpdateBody)
    (w : World) :
  authenticated w = true ->
  let kwargs := kwargs_of (model_validate body) in
  let forwarded :=
    since w (snd (PATCH_transaction env transaction_id body w))
    = [UpdateTransaction transaction_id kwargs] in
  (PATCH_transaction env transaction_id all_null_body w
     = PATCH_transaction env transaction_id empty_body w
   /\ PATCH_transaction env transaction_id all_null_body w
     = (Ret (status_message "no_change" "No fields to update"), w))
  /\ (forall k v, In (k, v) kwargs <-> In (k, Given v) (body_entries body))
  /\ ((forall k v, ~ In (k, Given v) (body_entries body)) ->
      PATCH_transaction env transaction_id body w
      = (Ret (status_message "no_change" "No fields to update"), w))
  /\ (kwargs <> [] -> forwarded)
  /\ (Py.truthy (Py.VBool false) = false
      /\ (b_needs_review body = Given false ->
          In ("needs_review", Py.VBool false) kwargs /\ forwarded))
  /\ (Py.truthy (Py.VFloat 0) = false
      /\ (b_amount body = Given 0 ->
          In ("amount", Py.VFloat 0) kwargs /\ forwarded))
  /\ (Py.truthy (Py.VStr "") = false
      /\ (b_notes body = Given "" ->
          In ("notes", Py.VStr "") kwargs /\ forwarded)).
Proof.
  intros Hw kwargs forwarded.
  assert (Hin : forall k v,
             In (k, v) kwargs <-> In (k, Given v) (body_entries body)).
  { intros k v. subst kwargs. unfold kwargs_of. rewrite filter_In; cbn [snd].
    rewrite is_not_None_iff.
    destruct body as [[| |?] [| |?] [| |?] [| |?] [| |?] [| |?]]; cbn;
      intuition congruence. }
  assert (Hfwd : kwargs <> [] -> forwarded).
  { intros Hk. subst forwarded kwargs. unfold PATCH_transaction.
    rewrite (update_transaction_run env _ _ _ Hw Hk). cbv zeta.
    destruct (gql_reply env (List.length (trace w))); apply since_app. }
  assert (Hkept : forall kv, In kv kwargs -> In kv kwargs /\ forwarded).
  { intros kv Hkv. split; [exact Hkv|]. apply Hfwd.
    intros Hnil. rewrite Hnil in Hkv. exact Hkv. }
  split; [|split; [exact Hin|split; [|split; [exact Hfwd|]]]].
  - split; [reflexivity|].
    unfold PATCH_transaction, update_transaction. run. rewrite Hw. reflexivity.
  - intros Hnone.
    assert (Hk : kwargs = []).
    { destruct kwargs as [|[k v] rest] eqn:E; [reflexivity|].
      exfalso. apply (Hnone k v). apply Hin. left. reflexivity. }
    unfold PATCH_transaction, update_transaction. fold kwargs. rewrite Hk.
    run. rewrite Hw. reflexivity.
  - split; [|split]; (split; [reflexivity|]); intros H;
      apply Hkept, Hin; unfold body_entries; rewrite H; cbn; auto 7.
Qed.

Lemma update_filter_is_not_None_witness :
  authenticated signed_in = true
  /\ b_needs_review falsy_body = Given false
  /\ b_amount falsy_body = Given 0
  /\ b_notes falsy_body = Given ""
  /\ since signed_in
       (snd (PATCH_transaction calm_env "123" falsy_body signed_in))
     = [UpdateTransaction "123"
          [("notes", Py.VStr ""); ("needs_review", Py.VBool false);
           ("amount", Py.VFloat 0)]].
Proof.
  split; [reflexivity|]. split; [reflexivity|]. split; [reflexivity|].
  split; [reflexivity|].
  destruct (update_filter_is_not_None calm_env "123" falsy_body signed_in
              eq_refl)
    as (_ & _ & _ & _ & (_ & Hr) & _ & _).
  destruct (Hr eq_refl) as [_ Hf]. exact Hf.
Defined.

Lemma valid_bounds (d : Z) :
  datetime.valid d = true <-> 1 <= d <= datetime.MAXORDINAL.
Proof. unfold datetime.valid. rewrite andb_true_iff, !Z.leb_le. tauto. Qed.

(** What an authenticated [GET /transactions] does when the window is a
    pair of calendar days: one listing call; its payload, or 500. *)
Lemma get_transactions_run (env : Env) (days : Z) (w : World) :
  let n := List.length (trace w) in
  let today := clock env n in
  authenticated w = true ->
  datetime.valid today = true ->
  datetime.valid (today - days) = true ->
  get_transactions env days w =
    let t := (trace w
              ++ [GetTransactions 1000 (datetime.strftime_Ymd (today - days))
                    (datetime.strftime_Ymd today)])%list in
    match gql_reply env n with
    | Returns payload => (Ret payload, mkWorld (token w) t (log w))
    | Raises e =>
        (Exc (HTTPException 500 (str_exn e)),
         mkWorld (token w) t
           (log w ++ [(ERROR, "Error fetching transactions: " ++ str_exn e)]))
    end.
Proof.
  intros n today Hw Ht Hs.
  assert (Hd : (Z.abs days <=? 999999999) = true).
  { apply valid_bounds in Ht, Hs. unfold datetime.MAXORDINAL in *.
    apply Z.leb_le. lia. }
  assert (Hc : (2 ^ 31 <=? days) || (days <? - 2 ^ 31) = false).
  { apply valid_bounds in Ht, Hs. unfold datetime.MAXORDINAL in *.
    apply orb_false_iff. change (2 ^ 31) with 2147483648.
    split; [apply Z.leb_gt | apply Z.ltb_ge]; lia. }
  unfold get_transactions, mm.get_transactions, datetime.timedelta,
    datetime.sub.
  unfold datetime.now, is_authenticated, lift, call, bind, try_except, ret.
  rewrite Hw; cbn [negb]. rewrite Hc, Hd. fold n. fold today. rewrite Hs.
  destruct (gql_reply env n); reflexivity.
Qed.

(** C7, as the code has it.  An authenticated [GET /transactions?days=N]
    (N = 30 when the parameter is left out) for which today minus N days is
    a calendar day between 0001-01-01 and 9999-12-31 makes exactly one
    remote call, [get_transactions] with limit 1000, start date today minus
    N days and end date today.  It answers 200 with the payload that call
    returns, unchanged, when the payload can be written as JSON; a payload
    that cannot (it holds a NaN or an infinity) is answered with a plain
    500, and a call that raises with 500 and the error text. *)
Theorem get_transactions_forwards_window
    (env : Env) (days : option Z) (w : World) :
  let N := match days with Some n => n | None => 30 end in
  let today := clock env (List.length (trace w)) in
  authenticated w = true ->
  datetime.valid today = true ->
  datetime.valid (today - N) = true ->
  since w (snd (GET_transactions env days w))
    = [GetTransactions 1000 (datetime.strftime_Ymd (today - N))
         (datetime.strftime_Ymd today)]
  /\ count is_remote (since w (snd (GET_transactions env days w))) = 1%nat
  /\ respond (fst (GET_transactions env days w))
     = match gql_reply env (List.length (trace w)) with
       | Returns payload =>
           if Py.json_ok payload then mkResponse 200 payload
           else mkResponse 500 (Py.VStr "Internal Server Error")
       | Raises e =>
           mkResponse 500 (Py.VDict [("detail", Py.VStr (str_exn e))])
       end.
Proof.
  intros N today Hw Ht Hs.
  unfold GET_transactions. fold N.
  rewrite (get_transactions_run env N w Hw Ht Hs). cbv zeta. fold today.
  destruct (gql_reply env (List.length (trace w))) as [p|e];
    cbn [fst snd respond]; rewrite since_app; repeat split.
Qed.

Lemma get_transactions_forwards_window_witness :
  authenticated signed_in = true
  /\ datetime.valid a_day = true
  /\ datetime.valid (a_day - 30) = true
  /\ since signed_in (snd (GET_transactions calm_env None signed_in))
     = [GetTransactions 1000 "2026-10-05" "2026-11-04"]
  /\ respond (fst (GET_transactions calm_env None signed_in))
     = mkResponse 200 (Py.VList [Py.VDict [("id", Py.VStr "1")]]).
Proof.
  split; [reflexivity|]. split; [reflexivity|]. split; [reflexivity|].
  destruct (get_transactions_forwards_window calm_env None signed_in
              eq_refl eq_refl eq_refl) as (Hs & _ & Hr).
  split; [exact Hs | exact Hr].
Defined.

(** C7 as the specification has it fails twice.  A window that leaves the
    calendar: with [days=1000000] on 2026-11-04 the subtraction raises
    [OverflowError], no remote call is made and the answer is 500.  A
    payload that is no JSON: a listed amount that is NaN is answered with
    500, not handed back. *)
Lemma get_transactions_window_counterexample :
  authenticated signed_in = true
  /\ datetime.valid (clock calm_env 0) = true
  /\ ~ forwards_window calm_env (Some 1000000) signed_in
  /\ since signed_in
       (snd (GET_transactions calm_env (Some 1000000) signed_in)) = []
  /\ status_code
       (respond (fst (GET_transactions calm_env (Some 1000000) signed_in)))
     = 500
  /\ ~ forwards_window nan_env None signed_in
  /\ status_code (respond (fst (GET_transactions nan_env None signed_in)))
     = 500.
Proof.
  split; [reflexivity|]. split; [reflexivity|].
  split; [|split; [reflexivity|split; [reflexivity|split; [|reflexivity]]]].
  - intros [H _]. vm_compute in H. discriminate H.
  - intros [_ H]. specialize (H _ eq_refl). vm_compute in H. discriminate H.
Qed.

(** *** Authentication *)

(** Every way [perform_login] can end. *)
Lemma perform_login_run (env : Env) (email password : string)
    (mfa_secret : option string) (w : World) :
  perform_login env email password mfa_secret w =
    let n := List.length (trace w) in
    let t := (trace w ++ [Login email password mfa_secret false])%list in
    match auth_reply env n with
    | Returns c =>
        (Ret (status_message "success" "Logged in successfully"),
         snd (save_session env (mkWorld c t (log w))))
    | Raises e =>
        let kept := mm.left_by_login env n e (token w) in
        if is_RequireMFA e then
          (Ret (status_message "mfa_required" "MFA code required"),
           mkWorld kept t (log w))
        else if is_LoginFailed e then
          (Exc (HTTPException 401 (str_exn e)),
           mkWorld kept t
             (log w ++ [(ERROR, "Login failed: " ++ str_exn e)]))
        else
          (Exc (HTTPException 500 (str_exn e)),
           mkWorld kept t
             (log w ++ [(ERROR, "Login error: " ++ str_exn e)]))
    end.
Proof.
  unfold perform_login, mm.login.
  unfold bind at 1 2, try_except at 1, ret.
  destruct (auth_reply env (List.length (trace w))) as [c|e]; cbv zeta.
  - pose proof (save_session_returns env
                  (mkWorld c (trace w ++ [Login email password mfa_secret
                                            false]) (log w))) as Hs.
    destruct (save_session env _) as [r w1]; cbn [fst snd] in *.
    rewrite Hs. reflexivity.
  - destruct e; reflexivity.
Qed.

(** C4, as the code has it.  When the remote login call returns,
    [POST /auth/login] answers 200 with status ["success"] and the login
    was the only remote call.  The handler does not look at the
    credential: the state is authenticated exactly when the client stored
    one.  The session store is run exactly once, by one [save_session]
    after the login: the directory is made once, and the session file is
    written once when that worked and not at all when it failed. *)
Theorem login_success_persists_once
    (env : Env) (req : LoginRequest) (w : World) (c : option Token) :
  auth_reply env (List.length (trace w)) = Returns c ->
  let n := List.length (trace w) in
  let logged_in :=
    mkWorld c
      (trace w ++ [Login (lr_email req) (lr_password req)
                     (lr_mfa_secret req) false]) (log w) in
  respond (fst (login env req w))
    = mkResponse 200 (status_message "success" "Logged in successfully")
  /\ body_status (respond (fst (login env req w)))
     = Some (Py.VStr "success")
  /\ token (snd (login env req w)) = c
  /\ authenticated (snd (login env req w))
     = match c with Some _ => true | None => false end
  /\ snd (login env req w) = snd (save_session env logged_in)
  /\ since w (snd (login env req w))
     = Login (lr_email req) (lr_password req) (lr_mfa_secret req) false
       :: Makedirs (Py.dirname (SESSION_FILE env))
       :: (if returned (fs_reply env (S n))
           then [SaveSession (SESSION_FILE env)] else [])
  /\ count is_remote (since w (snd (login env req w))) = 1%nat.
Proof.
  intros Ha n logged_in.
  unfold login. rewrite perform_login_run. cbv zeta. rewrite Ha.
  fold logged_in. cbn [fst snd].
  destruct (save_session_run env logged_in) as [Htok Htrace].
  cbn [trace token logged_in] in Htrace, Htok.
  rewrite length_app, Nat.add_1_r, <- app_assoc in Htrace. fold n in Htrace.
  apply since_trace in Htrace. rewrite Htrace.
  repeat split.
  - exact Htok.
  - unfold authenticated. rewrite Htok. reflexivity.
  - unfold count; cbn. destruct (returned _); reflexivity.
Qed.

Lemma login_success_persists_once_witness :
  auth_reply calm_env (List.length (trace signed_out))
    = Returns (Some "token-2")
  /\ respond (fst (login calm_env (mkLoginRequest "a@b.c" "pw" None)
                     signed_out))
     = mkResponse 200 (status_message "success" "Logged in successfully")
  /\ authenticated
       (snd (login calm_env (mkLoginRequest "a@b.c" "pw" None) signed_out))
     = true
  /\ since signed_out
       (snd (login calm_env (mkLoginRequest "a@b.c" "pw" None) signed_out))
     = [Login "a@b.c" "pw" None false; Makedirs "/data";
        SaveSession "/data/monarch_session.pickle"].
Proof.
  split; [reflexivity|].
  destruct (login_success_persists_once calm_env
              (mkLoginRequest "a@b.c" "pw" None) signed_out (Some "token-2")
              eq_refl)
    as (Hr & _ & _ & Ha & _ & Hs & _).
  split; [exact Hr|]. split; [exact Ha | exact Hs].
Defined.

(** C4 as the specification has it fails twice at one request.  The
    login call returns without a credential and the file system is
    read-only: the answer is 200 ["success"], yet the state is not
    authenticated and the session file is not written. *)
Lemma login_success_counterexample :
  auth_reply stormy_env (List.length (trace signed_out)) = Returns None
  /\ respond (fst (login stormy_env (mkLoginRequest "a@b.c" "pw" None)
                     signed_out))
     = mkResponse 200 (status_message "success" "Logged in successfully")
  /\ authenticated
       (snd (login stormy_env (mkLoginRequest "a@b.c" "pw" None) signed_out))
     = false
  /\ count is_persist
       (since signed_out
          (snd (login stormy_env (mkLoginRequest "a@b.c" "pw" None)
                  signed_out))) = 0%nat.
Proof. repeat split. Qed.



(** C1, what the code does.  When [mm.multi_factor_authenticate] returns
    and leaves no credential, the [HTTPException] with status 401 that the
    handler raises inside its own [try] is caught by the
    [except Exception] below it and turned into status 500, whose detail
    is the printed 401. *)
Theorem mfa_still_invalid_answers_500
    (env : Env) (req : MFARequest) (w : World) :
  auth_reply env (List.length (trace w)) = Returns None ->
  respond (fst (mfa env req w))
    = mkResponse 500 (Py.VDict [("detail", Py.VStr "401: MFA failed")])
  /\ status_code (respond (fst (mfa env req w))) <> 401
  /\ authenticated (snd (mfa env req w)) = false.
Proof.
  intros Ha. unfold mfa, mm.multi_factor_authenticate. run.
  rewrite Ha; cbn. repeat split. discriminate.
Qed.

Lemma mfa_still_invalid_answers_500_witness :
  auth_reply stormy_env (List.length (trace signed_out)) = Returns None
  /\ status_code
       (respond (fst (mfa stormy_env (mkMFARequest "t@e.com" "p" "123456")
                        signed_out))) = 500.
Proof.
  split; [reflexivity|].
  destruct (mfa_still_invalid_answers_500 stormy_env
              (mkMFARequest "t@e.com" "p" "123456") signed_out eq_refl)
    as (Hr & _ & _).
  rewrite Hr. reflexivity.
Defined.

(** *** Keep-alive *)

Lemma tick_calls_token (env : Env) (w w' : World) :
  token w' = token w -> tick_calls env w' = tick_calls env w.
Proof. intros H. unfold tick_calls, authenticated. rewrite H. reflexivity. Qed.

(** One turn, whatever the ping answers: the credential is untouched and
    the calls made are those of [tick_calls]; the turn ends normally
    unless the sleep refuses the interval. *)
Lemma keep_alive_tick_run (env : Env) (w : World) :
  exists w' : World,
    keep_alive_tick env w
      = ((if asyncio.too_large (KEEP_ALIVE_INTERVAL env)
          then Exc (OtherException "OverflowError"
                      "int too large to convert to float")
          else Ret tt), w')
    /\ token w' = token w
    /\ trace w' = (trace w ++ tick_calls env w)%list.
Proof.
  unfold keep_alive_tick, mm.get_accounts, tick_calls. run.
  destruct (authenticated w); cbn.
  - destruct (gql_reply env (List.length (trace w))); cbn;
      destruct (asyncio.too_large (KEEP_ALIVE_INTERVAL env));
      eexists; (split; [reflexivity|]); cbn; rewrite <- app_assoc; auto.
  - destruct (asyncio.too_large (KEEP_ALIVE_INTERVAL env));
      eexists; (split; [reflexivity|]); auto.
Qed.

(** The loop only adds to the trace and never assigns the credential,
    however it ends. *)
Lemma keep_alive_loop_extends (env : Env) (turns : nat) (w : World) :
  token (snd (keep_alive_loop env turns w)) = token w
  /\ exists evs : list Effect,
       trace (snd (keep_alive_loop env turns w)) = (trace w ++ evs)%list.
Proof.
  revert w. induction turns as [|n IH]; intros w; cbn [keep_alive_loop].
  - split; [reflexivity|]. exists []. rewrite app_nil_r. reflexivity.
  - destruct (keep_alive_tick_run env w) as (w1 & Hrun & Htok & Htr).
    rewrite Hrun.
    destruct (asyncio.too_large (KEEP_ALIVE_INTERVAL env)); cbn [snd].
    + split; [exact Htok|]. exists (tick_calls env w). exact Htr.
    + destruct (IH w1) as [Ht [evs Hevs]].
      split; [congruence|].
      exists (tick_calls env w ++ evs)%list.
      rewrite Hevs, Htr, app_assoc. reflexivity.
Qed.

(** C2, as the code has it.  Each turn of the keep-alive loop first checks
    the authentication state and, when authenticated, makes the one remote
    call [get_accounts]; only then does it sleep for the configured
    interval.  So the first call of a running loop is the ping when the
    state is authenticated, and the sleep otherwise. *)
Theorem keep_alive_tick_pings_then_sleeps
    (env : Env) (turns : nat) (w : World) :
  since w (snd (keep_alive_tick env w))
    = ((if authenticated w then [GetAccounts] else [])
       ++ [Sleep (KEEP_ALIVE_INTERVAL env)])%list
  /\ hd_error (since w (snd (keep_alive_loop env (S turns) w)))
     = Some (if authenticated w then GetAccounts
             else Sleep (KEEP_ALIVE_INTERVAL env)).
Proof.
  destruct (keep_alive_tick_run env w) as (w1 & Hrun & Htok & Htr).
  split.
  - rewrite Hrun; cbn [snd]. apply since_trace. exact Htr.
  - cbn [keep_alive_loop]. rewrite Hrun.
    assert (Hpre : exists evs,
               trace (snd (if asyncio.too_large (KEEP_ALIVE_INTERVAL env)
                           then (Crashed (OtherException "OverflowError"
                                   "int too large to convert to float"), w1)
                           else keep_alive_loop env turns w1))
               = (trace w1 ++ evs)%list).
    { destruct (asyncio.too_large (KEEP_ALIVE_INTERVAL env)); cbn [snd].
      - exists []. rewrite app_nil_r. reflexivity.
      - apply keep_alive_loop_extends. }
    destruct (asyncio.too_large (KEEP_ALIVE_INTERVAL env));
      destruct Hpre as [evs Hevs]; rewrite Htr, <- app_assoc in Hevs;
      rewrite (since_trace _ _ _ Hevs); unfold tick_calls;
      destruct (authenticated w); reflexivity.
Qed.

(** C2 as the specification has it fails: started in an authenticated
    state, the loop pings before it has slept at all. *)
Lemma keep_alive_sleep_first_counterexample :
  authenticated signed_in = true
  /\ since signed_in (snd (keep_alive_loop calm_env 1 signed_in))
     = [GetAccounts; Sleep 900]
  /\ ~ sleep_precedes_ping
         (since signed_in (snd (keep_alive_loop calm_env 1 signed_in))).
Proof.
  split; [reflexivity|]. split; [reflexivity|].
  intros H. specialize (H [] [Sleep 900] eq_refl). cbn in H. lia.
Qed.

(** What the loop does over any number of turns when the sleep accepts
    the interval. *)
Lemma keep_alive_loop_run (env : Env) (turns : nat) (w : World) :
  asyncio.too_large (KEEP_ALIVE_INTERVAL env) = false ->
  exists w' : World,
    keep_alive_loop env turns w = (Looping, w')
    /\ token w' = token w
    /\ trace w'
       = (trace w ++ List.concat (repeat (tick_calls env w) turns))%list.
Proof.
  intros Hfit. revert w. induction turns as [|n IH]; intros w; cbn.
  - exists w. rewrite app_nil_r. auto.
  - destruct (keep_alive_tick_run env w) as (w1 & Hrun & Htok & Htr).
    rewrite Hrun, Hfit. destruct (IH w1) as (w' & Hl & Htok' & Htr').
    exists w'. split; [exact Hl|]. split; [congruence|].
    rewrite Htr', Htr, (tick_calls_token env w w1 Htok), app_assoc.
    reflexivity.
Qed.

(** C3, as the code has it.  With a configured interval that
    [asyncio.sleep] accepts (an integer below [2 ^ 1024 - 2 ^ 970], the
    first that no longer converts to a float), the keep-alive loop never
    stops on a failed ping.  For every such environment, that is for
    every sequence of outcomes of the remote call, exceptions included,
    and for every number of turns, the task is still looping after that
    many turns, having slept once per turn; the credential is what it was
    at the start, and the calls made are the same [tick_calls] turn after
    turn, whatever the earlier pings answered. *)
Theorem keep_alive_loop_never_stops (env : Env) (turns : nat) (w : World) :
  asyncio.too_large (KEEP_ALIVE_INTERVAL env) = false ->
  exists w' : World,
    keep_alive_loop env turns w = (Looping, w')
    /\ token w' = token w
    /\ since w w' = List.concat (repeat (tick_calls env w) turns)
    /\ count is_sleep (since w w') = turns.
Proof.
  intros Hfit.
  destruct (keep_alive_loop_run env turns w Hfit) as (w' & Hl & Htok & Htr).
  exists w'. split; [exact Hl|]. split; [exact Htok|].
  rewrite (since_trace _ _ _ Htr). split; [reflexivity|].
  clear. induction turns as [|n IH]; [reflexivity|].
  cbn [repeat List.concat]. unfold count in *.
  rewrite filter_app, length_app, IH.
  unfold tick_calls. destruct (authenticated w); reflexivity.
Qed.

Lemma keep_alive_loop_never_stops_witness :
  asyncio.too_large (KEEP_ALIVE_INTERVAL stormy_env) = false
  /\ exists w' : World,
       keep_alive_loop stormy_env 3 signed_in = (Looping, w')
       /\ token w' = token signed_in
       /\ since signed_in w'
          = List.concat (repeat (tick_calls stormy_env signed_in) 3)
       /\ count is_sleep (since signed_in w') = 3%nat.
Proof.
  split; [reflexivity|].
  apply (keep_alive_loop_never_stops stormy_env 3 signed_in). reflexivity.
Defined.

(** C3 as the specification has it fails for an interval the sleep
    refuses.  With [KEEP_ALIVE_INTERVAL] set to [10 ** 309] the first
    sleep, which stands outside the [try], raises [OverflowError]: the
    task has left its loop after one turn, the ping of that turn made. *)
Lemma keep_alive_huge_interval_counterexample :
  keep_alive_loop sleepless_env 1 signed_in
    = (Crashed (OtherException "OverflowError"
                  "int too large to convert to float"),
       mkWorld (Some "token-1") [GetAccounts; Sleep (10 ^ 309)]
         [(INFO, "Performing keep-alive ping...");
          (INFO, "Keep-alive ping successful.")])
  /\ ~ exists w' : World,
        keep_alive_loop sleepless_env 1 signed_in = (Looping, w').
Proof.
  assert (H : keep_alive_loop sleepless_env 1 signed_in
              = (Crashed (OtherException "OverflowError"
                            "int too large to convert to float"),
                 mkWorld (Some "token-1") [GetAccounts; Sleep (10 ^ 309)]
                   [(INFO, "Performing keep-alive ping...");
                    (INFO, "Keep-alive ping successful.")])).
  { vm_compute. reflexivity. }
  split; [exact H|]. intros [w' Hw']. rewrite H in Hw'. discriminate Hw'.
Qed.

(** Two failed pings and a good one: three turns, three sleeps, the same
    credential, and the failures only in the log. *)
Example keep_alive_rides_out_failures :
  keep_alive_loop flaky_env 3 signed_in =
    (Looping,
     mkWorld (Some "token-1")
       [GetAccounts; Sleep 900; GetAccounts; Sleep 900; GetAccounts; Sleep 900]
       [(INFO, "Performing keep-alive ping...");
        (ERROR, "Keep-alive ping failed: API Error");
        (INFO, "Performing keep-alive ping...");
        (ERROR, "Keep-alive ping failed: API Error");
        (INFO, "Performing keep-alive ping...");
        (INFO, "Keep-alive ping successful.")]).
Proof. reflexivity. Qed.

(** A signed-out task only sleeps. *)
Example keep_alive_signed_out_only_sleeps :
  since signed_out (snd (keep_alive_loop stormy_env 2 signed_out))
    = [Sleep 900; Sleep 900].
Proof. reflexivity. Qed.

(** The window of thirty days that ends on 2026-11-04. *)
Example window_of_thirty_days :
  since signed_in (snd (GET_transactions calm_env None signed_in))
    = [GetTransactions 1000 "2026-10-05" "2026-11-04"].
Proof. reflexivity. Qed.

(** An unreadable session file: [load_session] answers false and logs. *)
Example load_session_unreadable :
  load_session stormy_env signed_out =
    (Ret false,
     mkWorld None [LoadSession "/data/monarch_session.pickle"]
       [(ERROR, "Failed to load session: truncated")]).
Proof. reflexivity. Qed.

(* ================================================================== *)
(** ** Further properties of [main.py]                                 *)
(* ================================================================== *)

(** *** [save_session] *)

(** X1.  [save_session] is best effort and never raises.  The directory is
    made first; when that fails the session file is not written at all;
    when it works the file is written once.  Each run leaves exactly one
    log record, [INFO] when both steps worked and [ERROR] with the cause
    otherwise, and never touches the credential. *)
Theorem save_session_best_effort (env : Env) (w : World) :
  save_session env w =
    let n := List.length (trace w) in
    let d := Makedirs (Py.dirname (SESSION_FILE env)) in
    let f := SaveSession (SESSION_FILE env) in
    match fs_reply env n with
    | Raises e =>
        (Ret tt,
         mkWorld (token w) (trace w ++ [d])
           (log w ++ [(ERROR, "Failed to save session: " ++ str_exn e)]))
    | Returns _ =>
        match fs_reply env (S n) with
        | Returns _ =>
            (Ret tt,
             mkWorld (token w) (trace w ++ [d; f])
               (log w ++ [(INFO, "Session saved to " ++ SESSION_FILE env)]))
        | Raises e =>
            (Ret tt,
             mkWorld (token w) (trace w ++ [d; f])
               (log w ++ [(ERROR, "Failed to save session: " ++ str_exn e)]))
        end
    end.
Proof.
  unfold save_session, mm.save_session. run.
  destruct (fs_reply env (List.length (trace w))); cbn; [|reflexivity].
  rewrite length_app, Nat.add_1_r; cbn.
  destruct (fs_reply env _); cbn; rewrite <- app_assoc; reflexivity.
Qed.

(** *** [perform_login] and [POST /auth/login] *)

(** X2.  A login that raises anything but the call for a second factor is
    answered with the exception's text as detail: 401 for a
    [LoginFailedException], 500 for any other exception.  The login call
    is the only call made (the session store is not run) and the failure
    is logged once as an error.  A refusal leaves the credential as it
    was; after any other exception the credential is what the library had
    stored before it raised, if it had stored one. *)
Theorem login_failure_answers_401_or_500
    (env : Env) (req : LoginRequest) (w : World) (e : exn) :
  auth_reply env (List.length (trace w)) = Raises e ->
  is_RequireMFA e = false ->
  respond (fst (login env req w))
    = mkResponse (if is_LoginFailed e then 401 else 500)
        (Py.VDict [("detail", Py.VStr (str_exn e))])
  /\ since w (snd (login env req w))
     = [Login (lr_email req) (lr_password req) (lr_mfa_secret req) false]
  /\ token (snd (login env req w))
     = (if is_LoginFailed e then token w
        else match stored_before_raise env (List.length (trace w)) with
             | Some c => c
             | None => token w
             end)
  /\ log (snd (login env req w))
     = (log w
        ++ [(ERROR, ((if is_LoginFailed e then "Login failed: "
                      else "Login error: ") ++ str_exn e)%string)])%list.
Proof.
  intros Ha Hm. unfold login. rewrite perform_login_run. cbv zeta.
  rewrite Ha, Hm. unfold mm.left_by_login. rewrite Hm.
  destruct (is_LoginFailed e); cbn [fst snd respond token log orb];
    rewrite since_app; repeat split.
Qed.

Lemma login_failure_answers_401_or_500_witness :
  auth_reply rejecting_env (List.length (trace signed_in))
    = Raises (LoginFailedException "Invalid credentials")
  /\ is_RequireMFA (LoginFailedException "Invalid credentials") = false
  /\ respond (fst (login rejecting_env (mkLoginRequest "a@b.c" "pw" None)
                     signed_in))
     = mkResponse 401 (Py.VDict [("detail", Py.VStr "Invalid credentials")])
  /\ token (snd (login rejecting_env (mkLoginRequest "a@b.c" "pw" None)
                   signed_in)) = Some "token-1".
Proof.
  split; [reflexivity|]. split; [reflexivity|].
  destruct (login_failure_answers_401_or_500 rejecting_env
              (mkLoginRequest "a@b.c" "pw" None) signed_in
              (LoginFailedException "Invalid credentials") eq_refl eq_refl)
    as (Hr & _ & Ht & _).
  split; [exact Hr | exact Ht].
Defined.

(** X3.  Whatever the provider and the file system answer, [POST /auth/login]
    makes exactly one remote call, the login with the request's own
    email, password and secret and with [use_saved_session=False]; the
    session store is touched after it only when that call returned. *)
Theorem login_calls (env : Env) (req : LoginRequest) (w : World) :
  let n := List.length (trace w) in
  since w (snd (login env req w))
    = Login (lr_email req) (lr_password req) (lr_mfa_secret req) false
      :: (if returned (auth_reply env n)
          then Makedirs (Py.dirname (SESSION_FILE env))
               :: (if returned (fs_reply env (S n))
                   then [SaveSession (SESSION_FILE env)] else [])
          else [])
  /\ count is_remote (since w (snd (login env req w))) = 1%nat.
Proof.
  intros n. unfold login. rewrite perform_login_run. cbv zeta. fold n.
  destruct (auth_reply env n) as [c|e]; cbn [returned snd].
  - destruct (save_session_run env
                (mkWorld c (trace w ++ [Login (lr_email req) (lr_password req)
                                          (lr_mfa_secret req) false])
                   (log w))) as [_ Htr].
    cbn [trace] in Htr.
    rewrite length_app, Nat.add_1_r, <- app_assoc in Htr. fold n in Htr.
    rewrite (since_trace _ _ _ Htr).
    split; [reflexivity|]. unfold count; cbn.
    destruct (returned (fs_reply env (S n))); reflexivity.
  - destruct (is_RequireMFA e); [|destruct (is_LoginFailed e)];
      cbn [snd]; rewrite since_app; split; reflexivity.
Qed.

(** X4.  The state machine of the credential under [POST /auth/login].
    When the login call returns, the credential is what the provider
    handed out.  When the provider refuses ([RequireMFAException],
    [LoginFailedException]) the credential stays what it was: a refused
    login never signs an existing session out.  When the call raises
    anything else, the credential is what the library had stored before
    raising, and what it was when the library had stored nothing. *)
Theorem login_credential_transition
    (env : Env) (req : LoginRequest) (w : World) :
  token (snd (login env req w))
    = match auth_reply env (List.length (trace w)) with
      | Returns c => c
      | Raises e =>
          if is_RequireMFA e || is_LoginFailed e then token w
          else match stored_before_raise env (List.length (trace w)) with
               | Some c => c
               | None => token w
               end
      end.
Proof.
  unfold login. rewrite perform_login_run. cbv zeta.
  destruct (auth_reply env (List.length (trace w))) as [c|e]; cbn [snd].
  - destruct (save_session_run env
                (mkWorld c (trace w ++ [Login (lr_email req) (lr_password req)
                                          (lr_mfa_secret req) false])
                   (log w))) as [Ht _].
    exact Ht.
  - unfold mm.left_by_login.
    destruct (is_RequireMFA e); [|destruct (is_LoginFailed e)]; reflexivity.
Qed.

(** A login that fails after the credential was stored: the answer is
    500 and the state is authenticated all the same. *)
Example login_late_failure :
  login late_failure_env (mkLoginRequest "a@b.c" "pw" None) signed_out
    = (Exc (HTTPException 500 "Permission denied"),
       mkWorld (Some "token-4") [Login "a@b.c" "pw" None false]
         [(ERROR, "Login error: Permission denied")]).
Proof. reflexivity. Qed.

(** *** [POST /auth/mfa] *)

(** Every way [mfa] can end. *)
Lemma mfa_run (env : Env) (req : MFARequest) (w : World) :
  mfa env req w =
    let t := (trace w ++ [MultiFactorAuthenticate (mr_email req)
                            (mr_password req) (mr_code req)])%list in
    match auth_reply env (List.length (trace w)) with
    | Returns (Some tok) =>
        (Ret (status_message "success" "MFA successful"),
         snd (save_session env (mkWorld (Some tok) t (log w))))
    | Returns None =>
        (Exc (HTTPException 500 "401: MFA failed"),
         mkWorld None t (log w ++ [(ERROR, "MFA error: 401: MFA failed")]))
    | Raises e =>
        (Exc (HTTPException 500 (str_exn e)),
         mkWorld (token w) t (log w ++ [(ERROR, "MFA error: " ++ str_exn e)]))
    end.
Proof.
  unfold mfa, mm.multi_factor_authenticate.
  unfold is_authenticated, set_token, call, bind at 1 2 3 4 5,
    try_except at 1, ret, raise.
  destruct (auth_reply env (List.length (trace w))) as [[tok|]|e];
    cbn [token trace log authenticated]; try reflexivity.
  pose proof (save_session_returns env
                (mkWorld (Some tok)
                   (trace w ++ [MultiFactorAuthenticate (mr_email req)
                                  (mr_password req) (mr_code req)])
                   (log w))) as Hs.
  unfold bind. destruct (save_session env _) as [r w1]; cbn [fst snd] in *.
  rewrite Hs. reflexivity.
Qed.

(** X5.  When the second factor is accepted and the provider hands out a
    credential, [POST /auth/mfa] answers 200 with status ["success"], the
    state is authenticated, and the session is persisted by one run of
    [save_session] after the one remote call. *)
Theorem mfa_success_persists_once
    (env : Env) (req : MFARequest) (w : World) (tok : Token) :
  auth_reply env (List.length (trace w)) = Returns (Some tok) ->
  let n := List.length (trace w) in
  respond (fst (mfa env req w))
    = mkResponse 200 (status_message "success" "MFA successful")
  /\ token (snd (mfa env req w)) = Some tok
  /\ since w (snd (mfa env req w))
     = MultiFactorAuthenticate (mr_email req) (mr_password req) (mr_code req)
       :: Makedirs (Py.dirname (SESSION_FILE env))
       :: (if returned (fs_reply env (S n))
           then [SaveSession (SESSION_FILE env)] else []).
Proof.
  intros Ha n. rewrite mfa_run. cbv zeta. rewrite Ha. cbn [fst snd respond].
  destruct (save_session_run env
              (mkWorld (Some tok)
                 (trace w ++ [MultiFactorAuthenticate (mr_email req)
                                (mr_password req) (mr_code req)])
                 (log w))) as [Ht Htr].
  cbn [trace] in Htr.
  rewrite length_app, Nat.add_1_r, <- app_assoc in Htr. fold n in Htr.
  rewrite (since_trace _ _ _ Htr). repeat split. exact Ht.
Qed.

Lemma mfa_success_persists_once_witness :
  auth_reply calm_env (List.length (trace signed_out))
    = Returns (Some "token-2")
  /\ respond (fst (mfa calm_env (mkMFARequest "t@e.com" "p" "123456")
                     signed_out))
     = mkResponse 200 (status_message "success" "MFA successful")
  /\ since signed_out
       (snd (mfa calm_env (mkMFARequest "t@e.com" "p" "123456") signed_out))
     = [MultiFactorAuthenticate "t@e.com" "p" "123456"; Makedirs "/data";
        SaveSession "/data/monarch_session.pickle"].
Proof.
  split; [reflexivity|].
  destruct (mfa_success_persists_once calm_env
              (mkMFARequest "t@e.com" "p" "123456") signed_out "token-2"
              eq_refl) as (Hr & _ & Hs).
  split; [exact Hr | exact Hs].
Defined.

(** X6.  Any exception of the provider during the second factor is answered
    500 with its text as detail, whatever its class: a rejected code
    ([LoginFailedException]) or a renewed call for the factor
    ([RequireMFAException]) is no 401 here, unlike on the login route.
    Nothing is persisted, the credential is what it was, and the failure
    is logged once. *)
Theorem mfa_failure_answers_500
    (env : Env) (req : MFARequest) (w : World) (e : exn) :
  auth_reply env (List.length (trace w)) = Raises e ->
  respond (fst (mfa env req w))
    = mkResponse 500 (Py.VDict [("detail", Py.VStr (str_exn e))])
  /\ since w (snd (mfa env req w))
     = [MultiFactorAuthenticate (mr_email req) (mr_password req)
          (mr_code req)]
  /\ token (snd (mfa env req w)) = token w
  /\ log (snd (mfa env req w))
     = (log w ++ [(ERROR, ("MFA error: " ++ str_exn e)%string)])%list.
Proof.
  intros Ha. rewrite mfa_run. cbv zeta. rewrite Ha.
  cbn [fst snd respond token log]. rewrite since_app. repeat split.
Qed.

Lemma mfa_failure_answers_500_witness :
  auth_reply rejecting_env (List.length (trace signed_out))
    = Raises (LoginFailedException "Invalid credentials")
  /\ respond (fst (mfa rejecting_env (mkMFARequest "t@e.com" "p" "000000")
                     signed_out))
     = mkResponse 500 (Py.VDict [("detail", Py.VStr "Invalid credentials")]).
Proof.
  split; [reflexivity|].
  destruct (mfa_failure_answers_500 rejecting_env
              (mkMFARequest "t@e.com" "p" "000000") signed_out
              (LoginFailedException "Invalid credentials") eq_refl)
    as (Hr & _).
  exact Hr.
Defined.

(** X7.  [POST /auth/mfa] has two answers only.  It answers 200 exactly when
    the remote call returned with a credential, and then the state is
    authenticated; in every other case it answers 500.  It makes exactly
    one remote call and no answer of it is a 401. *)
Theorem mfa_answers_200_or_500 (env : Env) (req : MFARequest) (w : World) :
  status_code (respond (fst (mfa env req w)))
    = match auth_reply env (List.length (trace w)) with
      | Returns (Some _) => 200
      | _ => 500
      end
  /\ authenticated (snd (mfa env req w))
     = match auth_reply env (List.length (trace w)) with
       | Returns (Some _) => true
       | Returns None => false
       | Raises _ => authenticated w
       end
  /\ status_code (respond (fst (mfa env req w))) <> 401
  /\ count is_remote (since w (snd (mfa env req w))) = 1%nat.
Proof.
  rewrite mfa_run. cbv zeta.
  destruct (auth_reply env (List.length (trace w))) as [[tok|]|e];
    cbn [fst snd respond status_code].
  - destruct (save_session_run env
                (mkWorld (Some tok)
                   (trace w ++ [MultiFactorAuthenticate (mr_email req)
                                  (mr_password req) (mr_code req)])
                   (log w))) as [Ht Htr].
    cbn [trace] in Htr. rewrite <- app_assoc in Htr.
    rewrite (since_trace _ _ _ Htr). unfold authenticated. rewrite Ht.
    repeat split; try discriminate.
    unfold count; cbn. destruct (returned _); reflexivity.
  - rewrite since_app. repeat split. discriminate.
  - rewrite since_app. repeat split. discriminate.
Qed.

(** *** [GET /transactions] *)

(** Every way an authenticated [get_transactions] can end. *)
Lemma get_transactions_cases (env : Env) (days : Z) (w : World) :
  authenticated w = true ->
  let n := List.length (trace w) in
  let failed (e : exn) (t : list Effect) :=
    (Exc (A := Py.value) (HTTPException 500 (str_exn e)),
     mkWorld (token w) t
       (log w ++ [(ERROR, "Error fetching transactions: " ++ str_exn e)])) in
  get_transactions env days w =
    match datetime.timedelta days with
    | Exc e => failed e (trace w)
    | Ret delta =>
        match datetime.sub (clock env n) delta with
        | Exc e => failed e (trace w)
        | Ret start =>
            let t := (trace w
                      ++ [GetTransactions 1000 (datetime.strftime_Ymd start)
                            (datetime.strftime_Ymd (clock env n))])%list in
            match gql_reply env n with
            | Returns payload => (Ret payload, mkWorld (token w) t (log w))
            | Raises e => failed e t
            end
        end
    end.
Proof.
  intros Hw n failed. subst failed.
  unfold get_transactions, mm.get_transactions.
  unfold datetime.now, is_authenticated, lift, call, bind, try_except, ret,
    raise, logger.error, logger.emit.
  rewrite Hw; cbn [negb]. fold n.
  destruct (datetime.timedelta days) as [delta|e]; cbn [token trace log].
  - destruct (datetime.sub (clock env n) delta) as [start|e];
      cbn [token trace log].
    + destruct (gql_reply env n); reflexivity.
    + reflexivity.
  - reflexivity.
Qed.

(** X8.  A window that leaves the calendar is answered 500 before the provider
    is asked: when today minus [days] is no day between 0001-01-01 and
    9999-12-31 an authenticated [GET /transactions] makes no remote call,
    logs the error and answers 500 with the [OverflowError] of [datetime]
    as detail: that of the C [int] conversion for days from [2 ** 31] up
    or below [-2 ** 31], that of [timedelta] for other days of more than
    nine digits, and that of the subtraction otherwise. *)
Theorem get_transactions_window_out_of_range
    (env : Env) (days : Z) (w : World) :
  let today := clock env (List.length (trace w)) in
  let detail :=
    if (2 ^ 31 <=? days) || (days <? - 2 ^ 31)
    then "Python int too large to convert to C int"
    else if Z.abs days <=? 999999999 then "date value out of range"
    else "days=" ++ Py.str_int days ++ "; must have magnitude <= 999999999" in
  authenticated w = true ->
  datetime.valid today = true ->
  datetime.valid (today - days) = false ->
  get_transactions env days w
    = (Exc (HTTPException 500 detail),
       mkWorld (token w) (trace w)
         (log w ++ [(ERROR, "Error fetching transactions: " ++ detail)])).
Proof.
  intros today detail Hw Ht Hs. subst detail.
  rewrite (get_transactions_cases env days w Hw). cbv zeta. fold today.
  unfold datetime.timedelta.
  destruct ((2 ^ 31 <=? days) || (days <? - 2 ^ 31)); [reflexivity|].
  destruct (Z.abs days <=? 999999999); [|reflexivity].
  unfold datetime.sub. rewrite Hs. reflexivity.
Qed.

Lemma get_transactions_window_out_of_range_witness :
  authenticated signed_in = true
  /\ datetime.valid a_day = true
  /\ datetime.valid (a_day - (-3000000)) = false
  /\ get_transactions calm_env (-3000000) signed_in
     = (Exc (HTTPException 500 "date value out of range"),
        mkWorld (Some "token-1") []
          [(ERROR, "Error fetching transactions: date value out of range")]).
Proof.
  split; [reflexivity|]. split; [reflexivity|]. split; [reflexivity|].
  apply (get_transactions_window_out_of_range calm_env (-3000000) signed_in);
    reflexivity.
Defined.

(** X9.  When the provider fails the listing, an authenticated
    [GET /transactions] with a window inside the calendar answers 500 with
    the provider's error text as detail, after exactly that one call; the
    error is logged and the credential is kept. *)
Theorem get_transactions_provider_failure
    (env : Env) (days : Z) (w : World) (e : exn) :
  let n := List.length (trace w) in
  let today := clock env n in
  authenticated w = true ->
  datetime.valid today = true ->
  datetime.valid (today - days) = true ->
  gql_reply env n = Raises e ->
  respond (fst (get_transactions env days w))
    = mkResponse 500 (Py.VDict [("detail", Py.VStr (str_exn e))])
  /\ since w (snd (get_transactions env days w))
     = [GetTransactions 1000 (datetime.strftime_Ymd (today - days))
          (datetime.strftime_Ymd today)]
  /\ token (snd (get_transactions env days w)) = token w
  /\ log (snd (get_transactions env days w))
     = (log w
        ++ [(ERROR, ("Error fetching transactions: " ++ str_exn e)%string)])%list.
Proof.
  intros n today Hw Ht Hs He.
  rewrite (get_transactions_run env days w Hw Ht Hs). cbv zeta.
  fold n. rewrite He. cbn [fst snd respond token log].
  rewrite since_app. repeat split.
Qed.

Lemma get_transactions_provider_failure_witness :
  authenticated signed_in = true
  /\ datetime.valid a_day = true
  /\ datetime.valid (a_day - 7) = true
  /\ gql_reply stormy_env 0 = Raises (OtherException "ClientError" "API Error")
  /\ respond (fst (get_transactions stormy_env 7 signed_in))
     = mkResponse 500 (Py.VDict [("detail", Py.VStr "API Error")])
  /\ since signed_in (snd (get_transactions stormy_env 7 signed_in))
     = [GetTransactions 1000 "2026-10-28" "2026-11-04"].
Proof.
  split; [reflexivity|]. split; [reflexivity|]. split; [reflexivity|].
  split; [reflexivity|].
  destruct (get_transactions_provider_failure stormy_env 7 signed_in
              (OtherException "ClientError" "API Error")
              eq_refl eq_refl eq_refl eq_refl) as (Hr & Hs & _).
  split; [exact Hr | exact Hs].
Defined.

(** *** [PATCH /transactions/{id}] *)

(** X10.  An unauthenticated [PATCH /transactions/{id}] is answered 401 whatever
    the body holds, and the world is left exactly as it was: no remote
    call, no log record. *)
Theorem update_transaction_unauthenticated_401
    (env : Env) (transaction_id : string) (update : TransactionUpdate)
    (w : World) :
  authenticated w = false ->
  update_transaction env transaction_id update w
    = (Exc (HTTPException 401 "Not authenticated"), w).
Proof.
  intros Hw. unfold update_transaction, is_authenticated, bind, raise.
  rewrite Hw. reflexivity.
Qed.

Lemma update_transaction_unauthenticated_401_witness :
  authenticated signed_out = false
  /\ update_transaction calm_env "123" falsy_update signed_out
     = (Exc (HTTPException 401 "Not authenticated"), signed_out).
Proof.
  split; [reflexivity|].
  apply (update_transaction_unauthenticated_401 calm_env "123" falsy_update
           signed_out); reflexivity.
Defined.

(** X11.  An authenticated update with at least one field set makes exactly one
    remote call, the update of that transaction with the kept fields.  It
    answers 200 with status ["success"] and a message naming the
    transaction when the call returns, and 500 with the provider's error
    text when it raises; the credential is kept either way. *)
Theorem update_transaction_answers
    (env : Env) (transaction_id : string) (update : TransactionUpdate)
    (w : World) :
  authenticated w = true ->
  kwargs_of update <> [] ->
  respond (fst (update_transaction env transaction_id update w))
    = match gql_reply env (List.length (trace w)) with
      | Returns _ =>
          mkResponse 200
            (status_message "success"
               ("Transaction " ++ transaction_id ++ " updated"))
      | Raises e =>
          mkResponse 500 (Py.VDict [("detail", Py.VStr (str_exn e))])
      end
  /\ count is_remote
       (since w (snd (update_transaction env transaction_id update w)))
     = 1%nat
  /\ token (snd (update_transaction env transaction_id update w)) = token w.
Proof.
  intros Hw Hk. rewrite (update_transaction_run env _ _ _ Hw Hk). cbv zeta.
  destruct (gql_reply env (List.length (trace w)));
    cbn [fst snd respond token]; rewrite since_app; repeat split.
Qed.

Lemma update_transaction_answers_witness :
  authenticated signed_in = true
  /\ kwargs_of falsy_update <> []
  /\ respond (fst (update_transaction stormy_env "123" falsy_update signed_in))
     = mkResponse 500 (Py.VDict [("detail", Py.VStr "API Error")])
  /\ respond (fst (update_transaction calm_env "123" falsy_update signed_in))
     = mkResponse 200 (status_message "success" "Transaction 123 updated").
Proof.
  split; [reflexivity|]. split; [discriminate|].
  destruct (update_transaction_answers stormy_env "123" falsy_update signed_in
              eq_refl) as (Hs & _); [discriminate|].
  destruct (update_transaction_answers calm_env "123" falsy_update signed_in
              eq_refl) as (Hc & _); [discriminate|].
  split; [exact Hs | exact Hc].
Defined.

(** *** The update set *)

Lemma update_transaction_no_change_run
    (env : Env) (transaction_id : string) (update : TransactionUpdate)
    (w : World) :
  authenticated w = true ->
  kwargs_of update = [] ->
  update_transaction env transaction_id update w
    = (Ret (status_message "no_change" "No fields to update"), w).
Proof.
  intros Hw Hk. unfold update_transaction. rewrite Hk.
  unfold is_authenticated, bind, try_except, ret. rewrite Hw. reflexivity.
Qed.

(** X12.  An authenticated [PATCH /transactions/{id}] is answered
    ["no_change"] exactly when no declared field holds a value: that is
    exactly when the update set is empty, and then the handler returns the
    ["no_change"] message and leaves the world as it was; with any field
    set the answer is never ["no_change"]. *)
Theorem no_change_iff_no_field
    (env : Env) (transaction_id : string) (update : TransactionUpdate)
    (w : World) :
  authenticated w = true ->
  let none := mkTransactionUpdate None None None None None None in
  (kwargs_of update = [] <-> update = none)
  /\ (update_transaction env transaction_id update w
      = (Ret (status_message "no_change" "No fields to update"), w)
      <-> update = none)
  /\ (body_status
        (respond (fst (update_transaction env transaction_id update w)))
      = Some (Py.VStr "no_change")
      <-> update = none).
Proof.
  intros Hw none.
  assert (Hk : kwargs_of update = [] <-> update = none).
  { subst none.
    destruct update as [[?|] [?|] [?|] [?|] [?|] [?|]]; cbn;
      split; intros H; try discriminate H; reflexivity. }
  split; [exact Hk|].
  destruct (kwargs_of update) as [|kv rest] eqn:E.
  - rewrite (update_transaction_no_change_run env _ _ _ Hw E).
    split; split; intros _; try reflexivity; apply Hk; reflexivity.
  - assert (Hne : kwargs_of update <> []) by (rewrite E; discriminate).
    rewrite (update_transaction_run env _ _ _ Hw Hne). cbv zeta.
    assert (Hnot : update <> none).
    { intros H. apply Hk in H. discriminate H. }
    destruct (gql_reply env (List.length (trace w))); cbn;
      split; split; intros H; try contradiction; discriminate H.
Qed.

Lemma no_change_iff_no_field_witness :
  authenticated signed_in = true
  /\ body_status
       (respond (fst (update_transaction calm_env "123"
                        (model_validate all_null_body) signed_in)))
     = Some (Py.VStr "no_change")
  /\ body_status
       (respond (fst (update_transaction calm_env "123" falsy_update
                        signed_in)))
     <> Some (Py.VStr "no_change").
Proof.
  split; [reflexivity|].
  destruct (no_change_iff_no_field calm_env "123"
              (model_validate all_null_body) signed_in eq_refl)
    as (_ & _ & Hn).
  destruct (no_change_iff_no_field calm_env "123" falsy_update signed_in
              eq_refl) as (_ & _ & Hf).
  split; [apply Hn; reflexivity|].
  intros H. apply Hf in H. discriminate H.
Defined.

(** X13.  The shape of the update set.  Its keys are the declared fields that
    hold a value, each once and in declaration order; no entry is [None];
    and looking a key up in it gives what [model_dump] holds for that key
    unless that is [None], in which case the key is missing. *)
Theorem kwargs_shape (update : TransactionUpdate) (k : string) :
  map fst (kwargs_of update)
    = filter (fun f => match Py.dict_get f (model_dump update) with
                       | Some v => Py.is_not_None v
                       | None => false
                       end) declared_fields
  /\ NoDup (map fst (kwargs_of update))
  /\ Forall (fun kv => snd kv <> Py.VNone) (kwargs_of update)
  /\ Py.dict_get k (kwargs_of update)
     = match Py.dict_get k (model_dump update) with
       | Some Py.VNone => None
       | found => found
       end.
Proof.
  assert (Hkeys : map fst (kwargs_of update)
                  = filter (fun f => match Py.dict_get f (model_dump update) with
                                     | Some v => Py.is_not_None v
                                     | None => false
                                     end) declared_fields).
  { destruct update as [[?|] [?|] [?|] [?|] [?|] [?|]]; reflexivity. }
  split; [exact Hkeys|]. split; [|split].
  - rewrite Hkeys. apply NoDup_filter. unfold declared_fields.
    repeat (constructor; [cbn; intuition discriminate|]). constructor.
  - unfold kwargs_of. apply Forall_forall. intros kv Hin.
    apply filter_In in Hin. destruct Hin as [_ Hnn].
    apply is_not_None_iff. exact Hnn.
  - destruct update as [[?|] [?|] [?|] [?|] [?|] [?|]]; cbn;
      repeat match goal with
             | |- context [String.eqb k ?s] =>
                 destruct (String.eqb_spec k s); [subst k; reflexivity|]
             end; reflexivity.
Qed.

(** *** All routes *)

(** X14.  The two protected routes answer 401 exactly when the state is
    unauthenticated: an authenticated request is never turned away with
    401, whatever the provider raises, and an unauthenticated one never
    gets anything else. *)
Theorem protected_routes_401_iff_unauthenticated
    (env : Env) (days : Z) (transaction_id : string)
    (update : TransactionUpdate) (w : World) :
  (status_code (respond (fst (get_transactions env days w))) = 401
   <-> authenticated w = false)
  /\ (status_code
        (respond (fst (update_transaction env transaction_id update w))) = 401
      <-> authenticated w = false).
Proof.
  destruct (authenticated w) eqn:Hw; split.
  - rewrite (get_transactions_cases env days w Hw). cbv zeta.
    destruct (datetime.timedelta days); [|split; discriminate].
    destruct (datetime.sub _ _); [|split; discriminate].
    destruct (gql_reply env _) as [p|e]; cbn [fst respond];
      [destruct (Py.json_ok p)|]; split; discriminate.
  - destruct (kwargs_of update) as [|kv rest] eqn:Hk.
    + rewrite (update_transaction_no_change_run env _ _ _ Hw Hk).
      split; discriminate.
    + assert (Hne : kwargs_of update <> []) by (rewrite Hk; discriminate).
      rewrite (update_transaction_run env _ _ _ Hw Hne). cbv zeta.
      destruct (gql_reply env _); split; discriminate.
  - unfold get_transactions, is_authenticated, bind, raise. rewrite Hw.
    split; reflexivity.
  - unfold update_transaction, is_authenticated, bind, raise. rewrite Hw.
    split; reflexivity.
Qed.

(** X15.  Only a login, a second factor and a session load assign the
    credential.  Reporting health, listing and updating transactions,
    saving the session, a turn of the keep-alive loop and the shutdown all
    leave it as it is, whatever the provider and the file system answer. *)
Theorem credential_kept_by_all_but_authentication
    (env : Env) (days : Z) (transaction_id : string)
    (update : TransactionUpdate) (w : World) :
  token (snd (health_check w)) = token w
  /\ token (snd (get_transactions env days w)) = token w
  /\ token (snd (update_transaction env transaction_id update w)) = token w
  /\ token (snd (save_session env w)) = token w
  /\ token (snd (keep_alive_tick env w)) = token w
  /\ token (snd (lifespan_shutdown env w)) = token w.
Proof.
  pose proof (save_session_run env w) as [Hsave _].
  repeat split.
  - destruct (authenticated w) eqn:Hw.
    + rewrite (get_transactions_cases env days w Hw). cbv zeta.
      destruct (datetime.timedelta days); [|reflexivity].
      destruct (datetime.sub _ _); [|reflexivity].
      destruct (gql_reply env _); reflexivity.
    + unfold get_transactions, is_authenticated, bind, raise. rewrite Hw.
      reflexivity.
  - destruct (authenticated w) eqn:Hw.
    + destruct (kwargs_of update) as [|kv rest] eqn:Hk.
      * rewrite (update_transaction_no_change_run env _ _ _ Hw Hk).
        reflexivity.
      * assert (Hne : kwargs_of update <> []) by (rewrite Hk; discriminate).
        rewrite (update_transaction_run env _ _ _ Hw Hne). cbv zeta.
        destruct (gql_reply env _); reflexivity.
    + unfold update_transaction, is_authenticated, bind, raise. rewrite Hw.
      reflexivity.
  - exact Hsave.
  - destruct (keep_alive_tick_run env w) as (w' & Hrun & Htok & _).
    rewrite Hrun. exact Htok.
  - unfold lifespan_shutdown, is_authenticated, bind, ret.
    destruct (authenticated w); [exact Hsave | reflexivity].
Qed.

(** X16.  No failure passes a route as an unhandled fault.  Each of the five
    handlers ends with a value or with an [HTTPException], whatever the
    provider, the file system and the clock do, and the status it is
    answered with is 200, 401 or 500. *)
Theorem handlers_answer_200_401_500
    (env : Env) (lreq : LoginRequest) (mreq : MFARequest) (days : Z)
    (transaction_id : string) (update : TransactionUpdate) (w : World) :
  Forall (fun r : Res Py.value =>
            handled r = true
            /\ In (status_code (respond r)) [200; 401; 500])
    [ fst (health_check w);
      fst (login env lreq w);
      fst (mfa env mreq w);
      fst (get_transactions env days w);
      fst (update_transaction env transaction_id update w) ].
Proof.
  repeat apply Forall_cons; [| | | | |apply Forall_nil].
  - cbn. auto.
  - unfold login. rewrite perform_login_run. cbv zeta.
    destruct (auth_reply env _) as [c|e]; [cbn; auto|].
    destruct (is_RequireMFA e); [cbn; auto|].
    destruct (is_LoginFailed e); cbn; auto.
  - rewrite mfa_run. cbv zeta.
    destruct (auth_reply env _) as [[tok|]|e]; cbn; auto.
  - destruct (authenticated w) eqn:Hw.
    + rewrite (get_transactions_cases env days w Hw). cbv zeta.
      destruct (datetime.timedelta days); [|cbn; auto].
      destruct (datetime.sub _ _); [|cbn; auto].
      destruct (gql_reply env _) as [p|e]; cbn [fst respond handled];
        [destruct (Py.json_ok p)|]; cbn; auto.
    + unfold get_transactions, is_authenticated, bind, raise. rewrite Hw.
      cbn; auto.
  - destruct (authenticated w) eqn:Hw.
    + destruct (kwargs_of update) as [|kv rest] eqn:Hk.
      * rewrite (update_transaction_no_change_run env _ _ _ Hw Hk).
        cbn; auto.
      * assert (Hne : kwargs_of update <> []) by (rewrite Hk; discriminate).
        rewrite (update_transaction_run env _ _ _ Hw Hne). cbv zeta.
        destruct (gql_reply env _); cbn; auto.
    + unfold update_transaction, is_authenticated, bind, raise. rewrite Hw.
      cbn; auto.
Qed.

(** *** The keep-alive task and [GET /health] *)

Lemma keep_alive_loop_trace (env : Env) (turns : nat) (w : World) :
  trace (snd (keep_alive_loop env turns w))
    = (trace w
       ++ List.concat (repeat (tick_calls env w) (turns_made env turns)))%list.
Proof.
  unfold turns_made.
  destruct (asyncio.too_large (KEEP_ALIVE_INTERVAL env)) eqn:Hfit.
  - destruct turns as [|n]; cbn [keep_alive_loop Nat.min repeat List.concat].
    + rewrite app_nil_r. reflexivity.
    + destruct (keep_alive_tick_run env w) as (w1 & Hrun & _ & Htr).
      rewrite Hrun, Hfit; cbn [snd]. rewrite Nat.min_0_r.
      cbn [repeat List.concat]. rewrite app_nil_r. exact Htr.
  - destruct (keep_alive_loop_run env turns w Hfit) as (w' & Hl & _ & Htr).
    rewrite Hl. exact Htr.
Qed.

(** X17.  The keep-alive task does nothing but ping and sleep.  Over any number
    of turns its only calls are [get_accounts] and the sleep of the
    configured interval: it never logs in again and never writes the
    session file.  It pings once per turn it runs when the state is
    authenticated and makes no remote call at all when it is not; it runs
    every turn, or the first only when the sleep refuses the interval. *)
Theorem keep_alive_only_pings_and_sleeps
    (env : Env) (turns : nat) (w : World) :
  let calls := since w (snd (keep_alive_loop env turns w)) in
  Forall (fun c => c = GetAccounts \/ c = Sleep (KEEP_ALIVE_INTERVAL env))
    calls
  /\ count is_remote calls
     = (if authenticated w then turns_made env turns else 0%nat)
  /\ count is_sleep calls = turns_made env turns
  /\ count is_persist calls = 0%nat.
Proof.
  intros calls. subst calls.
  rewrite (since_trace _ _ _ (keep_alive_loop_trace env turns w)).
  generalize (turns_made env turns) as m. clear turns.
  unfold tick_calls, count.
  induction m as [|n (IH1 & IH2 & IH3 & IH4)]; cbn [repeat List.concat].
  - split; [constructor|]. destruct (authenticated w); repeat split.
  - rewrite !filter_app, !length_app, IH2, IH3, IH4.
    split; [|destruct (authenticated w); repeat split].
    apply Forall_app. split; [|exact IH1].
    destruct (authenticated w); cbn;
      repeat (apply Forall_cons; [auto|]); apply Forall_nil.
Qed.

Lemma flat_map_after_map {A B C : Type} (f : B -> list C) (g : A -> B)
    (l : list A) :
  flat_map f (map g l) = flat_map (fun x => f (g x)) l.
Proof.
  induction l as [|a l IH]; cbn; [reflexivity|]. rewrite IH. reflexivity.
Qed.

Lemma keep_alive_tick_log (env : Env) (w : World) :
  log (snd (keep_alive_tick env w))
    = (log w ++ tick_log env (authenticated w) (List.length (trace w)))%list
  /\ List.length (trace (snd (keep_alive_tick env w)))
     = (List.length (trace w) + (if authenticated w then 2 else 1))%nat.
Proof.
  unfold keep_alive_tick, mm.get_accounts, tick_log. run.
  destruct (authenticated w); cbn.
  - destruct (gql_reply env (List.length (trace w))); cbn;
      destruct (asyncio.too_large (KEEP_ALIVE_INTERVAL env)); cbn;
      rewrite <- !app_assoc, !length_app; cbn; split; try reflexivity; lia.
  - destruct (asyncio.too_large (KEEP_ALIVE_INTERVAL env)); cbn;
      rewrite length_app; split; reflexivity.
Qed.

(** X18.  A failed ping is logged and nothing more.  In an authenticated state
    the log of the loop grows, for each turn it runs, by the announcement
    of the ping and then by its outcome: the success record when the call
    of that turn returned, one error record with the cause when it raised.
    In an unauthenticated state each turn logs that it was skipped.  The
    loop runs every turn, or the first only when the sleep refuses the
    interval. *)
Theorem keep_alive_logs_every_outcome
    (env : Env) (turns : nat) (w : World) :
  log (snd (keep_alive_loop env turns w))
    = (log w
       ++ flat_map
            (fun i => tick_log env (authenticated w)
                        (List.length (trace w)
                         + i * (if authenticated w then 2 else 1)))
            (seq 0 (turns_made env turns)))%list.
Proof.
  unfold turns_made.
  destruct (asyncio.too_large (KEEP_ALIVE_INTERVAL env)) eqn:Hfit.
  - destruct turns as [|n]; cbn [keep_alive_loop Nat.min seq flat_map].
    + rewrite app_nil_r. reflexivity.
    + destruct (keep_alive_tick_run env w) as (w1 & Hrun & _ & _).
      destruct (keep_alive_tick_log env w) as [Hlog _].
      rewrite Hrun in *; cbn [snd] in *. rewrite Hfit; cbn [snd].
      rewrite Nat.min_0_r. cbn [seq flat_map].
      rewrite Nat.mul_0_l, Nat.add_0_r, app_nil_r. exact Hlog.
  - revert w. induction turns as [|n IH]; intros w.
    + cbn. rewrite app_nil_r. reflexivity.
    + cbn [keep_alive_loop].
      destruct (keep_alive_tick_run env w) as (w1 & Hrun & Htok & _).
      destruct (keep_alive_tick_log env w) as [Hlog Hlen].
      rewrite Hrun in *; cbn [snd] in *. rewrite Hfit.
      rewrite IH, Hlog, Hlen.
      assert (Ha : authenticated w1 = authenticated w)
        by (unfold authenticated; rewrite Htok; reflexivity).
      rewrite Ha, <- app_assoc. f_equal.
      cbn [seq flat_map]. rewrite Nat.mul_0_l, Nat.add_0_r. f_equal.
      rewrite <- seq_shift, flat_map_after_map.
      apply flat_map_ext. intros i. f_equal. cbn [Nat.mul]. lia.
Qed.

(** X19.  [GET /health] always answers 200 with the state of authentication at
    that moment and touches nothing.  What it reports is not moved by the
    keep-alive task: after any number of turns, failed pings included, it
    reports what it reported before. *)
Theorem health_check_reports_state (env : Env) (turns : nat) (w : World) :
  health_check w
    = (Ret (Py.VDict [("status", Py.VStr "ok");
                      ("logged_in", Py.VBool (authenticated w))]), w)
  /\ status_code (respond (fst (health_check w))) = 200
  /\ fst (health_check (snd (keep_alive_loop env turns w)))
     = fst (health_check w).
Proof.
  split; [reflexivity|]. split; [reflexivity|].
  destruct (keep_alive_loop_extends env turns w) as [Htok _].
  unfold health_check, is_authenticated, bind, ret.
  cbn [fst]. unfold authenticated. rewrite Htok. reflexivity.
Qed.

(** *** Startup and shutdown *)

Lemma load_session_run (env : Env) (w : World) :
  load_session env w =
    let n := List.length (trace w) in
    let t := (trace w ++ [LoadSession (SESSION_FILE env)])%list in
    if path_exists env n then
      match load_reply env n with
      | Returns c =>
          (Ret true,
           mkWorld c t
             (log w ++ [(INFO, "Session loaded from " ++ SESSION_FILE env)]))
      | Raises e =>
          (Ret false,
           mkWorld (token w) t
             (log w ++ [(ERROR, "Failed to load session: " ++ str_exn e)]))
      end
    else (Ret false, w).
Proof.
  unfold load_session, mm.load_session. run.
  destruct (path_exists env (List.length (trace w))); [|reflexivity].
  destruct (load_reply env (List.length (trace w))); reflexivity.
Qed.

(** [load_session] always returns a boolean, and it is the one below. *)
Lemma load_session_result (env : Env) (w : World) :
  fst (load_session env w)
    = Ret (path_exists env (List.length (trace w))
           && returned (load_reply env (List.length (trace w)))).
Proof.
  rewrite load_session_run. cbv zeta.
  destruct (path_exists env _); [|reflexivity].
  destruct (load_reply env _); reflexivity.
Qed.

(** The automated login of the startup, from the world [w1] the session
    load left: every way it can end. *)
Lemma lifespan_startup_login_run (env : Env) (cfg : Credentials)
    (email password : string) (w : World) :
  fst (load_session env w) = Ret false ->
  MONARCH_EMAIL cfg = Some email -> email <> "" ->
  MONARCH_PASSWORD cfg = Some password -> password <> "" ->
  let w1 := snd (load_session env w) in
  let t := (trace w1
            ++ [Login email password (MONARCH_MFA_SECRET cfg) false])%list in
  let l := (log w1
            ++ [(INFO, "Attempting automated login on startup...")])%list in
  lifespan_startup env cfg w =
    match auth_reply env (List.length (trace w1)) with
    | Returns c =>
        let w3 := snd (save_session env (mkWorld c t l)) in
        (Ret tt,
         mkWorld (token w3) (trace w3)
           (log w3 ++ [(INFO, "Automated login successful")]))
    | Raises e =>
        (Ret tt,
         mkWorld
           (mm.left_by_login env (List.length (trace w1)) e (token w1)) t
           (l ++ (if is_RequireMFA e then
                    [(INFO, "Automated login: MFA code required")]
                  else if is_LoginFailed e then
                    [(ERROR, "Login failed: " ++ str_exn e);
                     (ERROR, "Automated login failed: 401: " ++ str_exn e)]
                  else
                    [(ERROR, "Login error: " ++ str_exn e);
                     (ERROR, "Automated login failed: 500: " ++ str_exn e)])))
    end.
Proof.
  intros Hload He Hne Hp Hnp w1 t l.
  unfold lifespan_startup, bind at 1.
  destruct (load_session env w) as [r w0] eqn:El. cbn [fst snd] in *.
  subst r w1. rewrite He, Hp. cbn [negb andb Py.truthy].
  destruct (String.eqb_spec email ""); [contradiction|].
  destruct (String.eqb_spec password ""); [contradiction|].
  cbn [negb andb].
  unfold bind at 1, logger.info, logger.emit, try_except, bind at 1.
  rewrite perform_login_run. cbv zeta. cbn [token trace log]. fold t l.
  destruct (auth_reply env (List.length (trace w0))) as [c|e].
  - reflexivity.
  - destruct (is_RequireMFA e); [reflexivity|].
    destruct (is_LoginFailed e); unfold logger.error, logger.emit; cbn;
      rewrite <- app_assoc; reflexivity.
Qed.

(** X20.  The startup never fails the process.  Whatever the session file, the
    provider and the configured credentials are, it ends normally: a
    refused or failing automated login is logged and swallowed. *)
Theorem lifespan_startup_never_raises
    (env : Env) (cfg : Credentials) (w : World) :
  fst (lifespan_startup env cfg w) = Ret tt.
Proof.
  pose proof (load_session_result env w) as Hres.
  destruct (path_exists env (List.length (trace w))
            && returned (load_reply env (List.length (trace w)))) eqn:Hb.
  - unfold lifespan_startup, bind at 1.
    destruct (load_session env w) as [r w0]. cbn [fst] in Hres. subst r.
    destruct (MONARCH_EMAIL cfg), (MONARCH_PASSWORD cfg); reflexivity.
  - destruct (MONARCH_EMAIL cfg) as [email|] eqn:He;
      [destruct (MONARCH_PASSWORD cfg) as [password|] eqn:Hp|].
    + destruct (String.eqb_spec email "") as [->|Hne].
      { unfold lifespan_startup, bind at 1.
        destruct (load_session env w) as [r w0]. cbn [fst] in Hres. subst r.
        rewrite He, Hp. cbn. reflexivity. }
      destruct (String.eqb_spec password "") as [->|Hnp].
      { unfold lifespan_startup, bind at 1.
        destruct (load_session env w) as [r w0]. cbn [fst] in Hres. subst r.
        rewrite He, Hp. cbn. rewrite andb_false_r. reflexivity. }
      rewrite (lifespan_startup_login_run env cfg email password w
                 Hres He Hne Hp Hnp). cbv zeta.
      destruct (auth_reply env _); reflexivity.
    + unfold lifespan_startup, bind at 1.
      destruct (load_session env w) as [r w0]. cbn [fst] in Hres. subst r.
      rewrite He, Hp. reflexivity.
    + unfold lifespan_startup, bind at 1.
      destruct (load_session env w) as [r w0]. cbn [fst] in Hres. subst r.
      rewrite He. reflexivity.
Qed.

(** X21.  A session file that loads ends the startup there.  When the file
    exists and [mm.load_session] returns, the startup makes no other call,
    whatever credentials are configured: it does not log in, even when the
    file held no credential and the state is still unauthenticated. *)
Theorem lifespan_startup_loaded_session_skips_login
    (env : Env) (cfg : Credentials) (w : World) (c : option Token) :
  path_exists env (List.length (trace w)) = true ->
  load_reply env (List.length (trace w)) = Returns c ->
  lifespan_startup env cfg w
    = (Ret tt,
       mkWorld c (trace w ++ [LoadSession (SESSION_FILE env)])
         (log w ++ [(INFO, "Session loaded from " ++ SESSION_FILE env)])).
Proof.
  intros Hp Hl. unfold lifespan_startup, bind at 1.
  rewrite load_session_run. cbv zeta. rewrite Hp, Hl.
  destruct (MONARCH_EMAIL cfg), (MONARCH_PASSWORD cfg); reflexivity.
Qed.

Lemma lifespan_startup_loaded_session_skips_login_witness :
  path_exists calm_env (List.length (trace signed_out)) = true
  /\ load_reply calm_env (List.length (trace signed_out))
     = Returns (Some "token-0")
  /\ lifespan_startup calm_env configured signed_out
     = (Ret tt,
        mkWorld (Some "token-0") [LoadSession "/data/monarch_session.pickle"]
          [(INFO, "Session loaded from /data/monarch_session.pickle")]).
Proof.
  split; [reflexivity|]. split; [reflexivity|].
  apply (lifespan_startup_loaded_session_skips_login calm_env configured
           signed_out (Some "token-0")); reflexivity.
Defined.

(** X22.  Without both credentials there is no automated login.  When the email
    or the password is unset or empty the startup is the session load and
    nothing else: no remote call is made. *)
Theorem lifespan_startup_without_credentials
    (env : Env) (cfg : Credentials) (w : World) :
  Py.truthy (dump Py.VStr (MONARCH_EMAIL cfg))
  && Py.truthy (dump Py.VStr (MONARCH_PASSWORD cfg)) = false ->
  snd (lifespan_startup env cfg w) = snd (load_session env w)
  /\ count is_remote (since w (snd (lifespan_startup env cfg w))) = 0%nat.
Proof.
  intros Hc.
  assert (Hs : snd (lifespan_startup env cfg w) = snd (load_session env w)).
  { pose proof (load_session_result env w) as Hres.
    unfold lifespan_startup, bind at 1.
    destruct (load_session env w) as [r w0]. cbn [fst snd] in *. subst r.
    destruct (MONARCH_EMAIL cfg) as [email|];
      [destruct (MONARCH_PASSWORD cfg) as [password|]|]; try reflexivity.
    cbn [dump] in Hc. rewrite <- andb_assoc, Hc, andb_false_r. reflexivity. }
  split; [exact Hs|]. rewrite Hs, load_session_run. cbv zeta.
  destruct (path_exists env _); [|cbn [snd]; rewrite since_self; reflexivity].
  destruct (load_reply env _); cbn [snd]; rewrite since_app; reflexivity.
Qed.

Lemma lifespan_startup_without_credentials_witness :
  Py.truthy (dump Py.VStr (MONARCH_EMAIL unconfigured))
  && Py.truthy (dump Py.VStr (MONARCH_PASSWORD unconfigured)) = false
  /\ snd (lifespan_startup fresh_env unconfigured signed_out) = signed_out.
Proof.
  split; [reflexivity|].
  destruct (lifespan_startup_without_credentials fresh_env unconfigured
              signed_out eq_refl) as [Hs _].
  rewrite Hs. reflexivity.
Defined.

(** X23.  The automated login.  When no session was loaded and both credentials
    are set and non-empty, the startup makes exactly one remote call, the
    login with the configured email, password and secret and with
    [use_saved_session=False].  The credential becomes what the provider
    handed out when the login returns; it stays what the load left when
    the provider refuses, and is what the library had stored, if anything,
    when the login raises otherwise.  The last log record tells the
    outcome: success, the call for a second factor, or the failure with
    the status [perform_login] gave it. *)
Theorem lifespan_startup_automated_login
    (env : Env) (cfg : Credentials) (email password : string) (w : World) :
  fst (load_session env w) = Ret false ->
  MONARCH_EMAIL cfg = Some email -> email <> "" ->
  MONARCH_PASSWORD cfg = Some password -> password <> "" ->
  let w1 := snd (load_session env w) in
  let w' := snd (lifespan_startup env cfg w) in
  let n := List.length (trace w1) in
  hd_error (since w1 w')
    = Some (Login email password (MONARCH_MFA_SECRET cfg) false)
  /\ count is_remote (since w1 w') = 1%nat
  /\ token w'
     = match auth_reply env n with
       | Returns c => c
       | Raises e =>
           if is_RequireMFA e || is_LoginFailed e then token w1
           else match stored_before_raise env n with
                | Some c => c
                | None => token w1
                end
       end
  /\ last (log w') (INFO, "")
     = match auth_reply env n with
       | Returns _ => (INFO, "Automated login successful")
       | Raises e =>
           if is_RequireMFA e then
             (INFO, "Automated login: MFA code required")
           else
             (ERROR,
              "Automated login failed: "
              ++ (if is_LoginFailed e then "401: " else "500: ")
              ++ str_exn e)
       end.
Proof.
  intros Hload He Hne Hp Hnp w1 w' n. subst w' n.
  rewrite (lifespan_startup_login_run env cfg email password w
             Hload He Hne Hp Hnp). cbv zeta. fold w1.
  destruct (auth_reply env (List.length (trace w1))) as [c|e]; cbn [snd].
  - destruct (save_session_run env
                (mkWorld c
                   (trace w1 ++ [Login email password (MONARCH_MFA_SECRET cfg)
                                   false])
                   (log w1 ++ [(INFO,
                                "Attempting automated login on startup...")])))
      as [Ht Htr].
    cbn [trace token] in Ht, Htr. rewrite <- app_assoc in Htr.
    unfold since; cbn [trace token log]. rewrite Htr.
    rewrite skipn_app, skipn_all, Nat.sub_diag. cbn [skipn app hd_error].
    rewrite last_last. repeat split; [|exact Ht].
    unfold count; cbn. destruct (returned _); reflexivity.
  - rewrite since_app. cbn [token log hd_error]. unfold mm.left_by_login.
    destruct (is_RequireMFA e); [|destruct (is_LoginFailed e)];
      cbn [orb];
      repeat split;
      match goal with
      | |- last (?l ++ [?a; ?b]) _ = _ =>
          change (l ++ [a; b])%list with (l ++ [a] ++ [b])%list;
          rewrite app_assoc, last_last; reflexivity
      | |- last (?l ++ [?a]) _ = _ => rewrite last_last; reflexivity
      end.
Qed.

Lemma lifespan_startup_automated_login_witness :
  fst (load_session fresh_env signed_out) = Ret false
  /\ MONARCH_EMAIL configured = Some "a@b.c" /\ "a@b.c" <> ""
  /\ MONARCH_PASSWORD configured = Some "pw" /\ "pw" <> ""
  /\ token (snd (lifespan_startup fresh_env configured signed_out))
     = Some "token-3"
  /\ last (log (snd (lifespan_startup fresh_env configured signed_out)))
       (INFO, "")
     = (INFO, "Automated login successful").
Proof.
  split; [reflexivity|]. split; [reflexivity|]. split; [discriminate|].
  split; [reflexivity|]. split; [discriminate|].
  destruct (lifespan_startup_automated_login fresh_env configured
              "a@b.c" "pw" signed_out eq_refl eq_refl)
    as (_ & _ & Ht & Hl); try discriminate; try reflexivity.
  split; [exact Ht | exact Hl].
Defined.

(** X24.  The shutdown persists the session exactly when the state is
    authenticated: then it is one run of [save_session], otherwise it
    touches nothing.  It never raises. *)
Theorem lifespan_shutdown_persists_when_authenticated
    (env : Env) (w : World) :
  fst (lifespan_shutdown env w) = Ret tt
  /\ since w (snd (lifespan_shutdown env w))
     = (if authenticated w
        then Makedirs (Py.dirname (SESSION_FILE env))
             :: (if returned (fs_reply env (List.length (trace w)))
                 then [SaveSession (SESSION_FILE env)] else [])
        else []).
Proof.
  unfold lifespan_shutdown, is_authenticated, bind, ret.
  destruct (authenticated w).
  - split; [apply save_session_returns|].
    destruct (save_session_run env w) as [_ Htr].
    apply since_trace. exact Htr.
  - split; [reflexivity | apply since_self].
Qed.

(** *** Routes in sequence *)

(** X25.  A login decides what the protected route answers next.  The
    [GET /transactions] that follows a [POST /auth/login] is turned away
    with 401 exactly when the login left no credential: the provider
    returned without one; or it refused and no session was there before;
    or the call raised otherwise and the library had stored none, or
    had stored nothing where no session was there before. *)
Theorem login_then_get_transactions
    (env : Env) (req : LoginRequest) (days : Z) (w : World) :
  status_code
    (respond (fst (get_transactions env days (snd (login env req w))))) = 401
  <-> match auth_reply env (List.length (trace w)) with
      | Returns c => c = None
      | Raises e =>
          if is_RequireMFA e || is_LoginFailed e then token w = None
          else match stored_before_raise env (List.length (trace w)) with
               | Some c => c = None
               | None => token w = None
               end
      end.
Proof.
  assert (Ht : token (snd (login env req w))
               = match auth_reply env (List.length (trace w)) with
                 | Returns c => c
                 | Raises e =>
                     mm.left_by_login env (List.length (trace w)) e (token w)
                 end).
  { unfold login. rewrite perform_login_run. cbv zeta.
    destruct (auth_reply env (List.length (trace w))) as [c|e]; cbn [snd].
    - destruct (save_session_run env
                  (mkWorld c
                     (trace w ++ [Login (lr_email req) (lr_password req)
                                    (lr_mfa_secret req) false])
                     (log w))) as [H _].
      exact H.
    - destruct (is_RequireMFA e); [|destruct (is_LoginFailed e)];
        reflexivity. }
  set (w1 := snd (login env req w)) in *.
  assert (H401 : status_code (respond (fst (get_transactions env days w1)))
                 = 401 <-> token w1 = None).
  { destruct (authenticated w1) eqn:Hw.
    - rewrite (get_transactions_cases env days w1 Hw). cbv zeta.
      unfold authenticated in Hw.
      destruct (token w1); [|discriminate].
      destruct (datetime.timedelta days); [|split; discriminate].
      destruct (datetime.sub _ _); [|split; discriminate].
      destruct (gql_reply env _) as [p|e]; cbn [fst respond];
        [destruct (Py.json_ok p)|]; split; discriminate.
    - unfold get_transactions, is_authenticated, bind, raise. rewrite Hw.
      unfold authenticated in Hw. destruct (token w1); [discriminate|].
      split; reflexivity. }
  rewrite H401, Ht. unfold mm.left_by_login.
  destruct (auth_reply env (List.length (trace w))) as [c|e];
    [reflexivity|].
  destruct (is_RequireMFA e || is_LoginFailed e); [reflexivity|].
  destruct (stored_before_raise env _); reflexivity.
Qed.

(** *** The standard library at its edges *)

(** Years below 1000 are printed without padding. *)
Example strftime_early_years :
  datetime.strftime_Ymd (a_day - 400000) = "931-09-06"
  /\ datetime.strftime_Ymd 1 = "1-01-01"
  /\ datetime.strftime_Ymd datetime.MAXORDINAL = "9999-12-31".
Proof. repeat split. Qed.

(** The two ways [timedelta] refuses its days. *)
Example timedelta_refusals :
  datetime.timedelta (2 ^ 31 - 1)
    = Exc (datetime.OverflowError
             "days=2147483647; must have magnitude <= 999999999")
  /\ datetime.timedelta (2 ^ 31)
     = Exc (datetime.OverflowError "Python int too large to convert to C int")
  /\ datetime.timedelta (- 2 ^ 31)
     = Exc (datetime.OverflowError
              "days=-2147483648; must have magnitude <= 999999999")
  /\ datetime.timedelta (- 2 ^ 31 - 1)
     = Exc (datetime.OverflowError "Python int too large to convert to C int")
  /\ datetime.timedelta 999999999 = Ret 999999999.
Proof. repeat split. Qed.

(** Where the sleep starts to refuse its delay. *)
Example sleep_refusal_threshold :
  asyncio.too_large (2 ^ 1024 - 2 ^ 970 - 1) = false
  /\ asyncio.too_large (2 ^ 1024 - 2 ^ 970) = true
  /\ asyncio.too_large (10 ^ 309) = true
  /\ asyncio.too_large (-5) = false.
Proof. repeat split. Qed.

(** A listing with a NaN in it cannot be handed back. *)
Example nan_payload_is_no_json :
  Py.json_ok (Py.VList [Py.VDict [("amount", Py.VFloat NaN)]]) = false
  /\ Py.json_ok (Py.VList [Py.VDict [("amount", Py.VFloat 0)]]) = true
  /\ respond (fst (GET_transactions nan_env None signed_in))
     = mkResponse 500 (Py.VStr "Internal Server Error").
Proof. repeat split. Qed.
